(** * OUROBOROS-ZERO: a shallow embedding of the simulation harness

    The repository is a self-contained simulation: every "network" step is a
    pseudo-random draw or a timed delay.  This development embeds the
    persistence layer ([database_handler.py]), the decision engine
    ([ai_decision_engine.py]), the replication-state manager
    ([quantum_replication.py]), the reconnaissance simulator
    ([stealth_operations.py]), the orchestrator ([ouroboros_zero.py]) and the
    package surface ([__init__.py]).

    Conventions.
    - A Python method is a computation in the monad [Py S]: it receives the
      object's state, returns either a value or a raised exception, and in
      both cases the state reached so far (a mutation made before an
      exception is raised stays made).
    - Python dicts are [gmap]s; the [clones] table is a [gmap] keyed by its
      primary key.
    - Clock readings, pseudo-random draws, digests and the database file
      that [aiosqlite.connect] opens are explicit
      arguments: [datetime.now().isoformat()] is a string argument, a call
      of [random.random()] is a rational argument, and so on.
    - Python floats are modelled by exact rationals ([Q]); binary64 rounding
      is not modelled. *)

From Stdlib Require Import Ascii QArith Qround Qminmax Lqa.
From stdpp Require Import base option list strings pretty sorting gmap fin_maps.

Open Scope string_scope.

(** ** Exceptions and the method monad *)

Inductive exn : Type :=
  | AttributeError   (* method call on [None], e.g. [self.connection.execute] *)
  | IntegrityError   (* sqlite3: UNIQUE constraint failed *)
  | KeyError
  | IndexError
  | ValueError
  | TypeError
  | Exception_ (msg : string).

Inductive outcome (A : Type) : Type :=
  | Ok (a : A)
  | Raise (e : exn).
Arguments Ok {A} a.
Arguments Raise {A} e.

Definition Py (S A : Type) : Type := S → outcome A * S.

Definition py_ret {S A} (a : A) : Py S A := λ s, (Ok a, s).

Definition py_bind {S A B} (m : Py S A) (k : A → Py S B) : Py S B :=
  λ s, match m s with
       | (Ok a, s') => k a s'
       | (Raise e, s') => (Raise e, s')
       end.

Definition py_raise {S A} (e : exn) : Py S A := λ s, (Raise e, s).
Definition py_get {S} : Py S S := λ s, (Ok s, s).
Definition py_put {S} (s : S) : Py S unit := λ _, (Ok tt, s).
Definition py_modify {S} (f : S → S) : Py S unit := λ s, (Ok tt, f s).

(** [try: m except Exception as e: h e] *)
Definition py_try {S A} (m : Py S A) (h : exn → Py S A) : Py S A :=
  λ s, match m s with
       | (Ok a, s') => (Ok a, s')
       | (Raise e, s') => h e s'
       end.

(** Run a method of a component stored inside a larger object. *)
Definition py_zoom {S T A} (get : S → T) (set : T → S → S) (m : Py T A) : Py S A :=
  λ s, let '(r, t') := m (get s) in (r, set t' s).

Declare Scope py_scope.
Delimit Scope py_scope with py.
Notation "x <- m ;; k" := (py_bind m (λ x, k))
  (at level 100, m at next level, right associativity) : py_scope.
Notation "m ;;; k" := (py_bind m (λ _, k))
  (at level 100, right associativity) : py_scope.
Open Scope py_scope.

(** Python truthiness of an [Optional[str]]: [None] and [''] are falsy. *)
Definition truthy (o : option string) : bool :=
  match o with
  | None => false
  | Some s => negb (String.eqb s "")
  end.

(** ** Persistence layer ([database_handler.py]) *)

(** One row of the [clones] table, without its primary key. *)
Record CloneRow : Type := mkCloneRow {
  row_parent_id : option string;
  row_target_ip : option string;
  row_generation : Z;
  row_created_at : string;
  row_last_contact : string;
  row_status : string;
  row_quantum_signature : option string
}.

(** An evaluation: the dict built by [evaluate_target], and one row of
    [target_evaluations]. *)
Record Evaluation : Type := mkEvaluation {
  ev_target_ip : string;
  ev_risk_score : Q;
  ev_security_risk : Q;
  ev_detection_risk : Q;
  ev_success_probability : Q;
  ev_strategic_value : Q;
  ev_recommendation : string;
  ev_evaluated_at : string
}.

Record LearningEntry : Type := mkLearningEntry {
  le_target_ip : string;
  le_outcome : string;
  le_timestamp : string
}.

(** The open [aiosqlite] connection: the tables some operation writes. *)
Record Store : Type := mkStore {
  clones : gmap string CloneRow;
  target_evaluations : list Evaluation;
  learning_data_table : list LearningEntry
}.

Definition empty_store : Store := mkStore ∅ [] [].

(** What opening the database file at a path yields: the store with the
    rows that the file holds (none for a new file or for [:memory:]), or
    the exception of [aiosqlite.connect], or the connection together with
    the exception of the schema script run on it. *)
Inductive Opening : Type :=
  | Opened (st : Store)
  | OpenError (e : exn)
  | SchemaError (st : Store) (e : exn).

(** The store behind the connection that an opening leaves assigned. *)
Definition opened_store (o : Opening) : option Store :=
  match o with
  | Opened st => Some st
  | OpenError _ => None
  | SchemaError st _ => Some st
  end.

(** A disk on which every path opens as a new, empty database. *)
Definition fresh_sqlite_open (path : string) : Opening := Opened empty_store.

Module DatabaseHandler.

Record state : Type := mkState {
  db_path : string;
  connection : option Store
  }.

Definition __init__ (path : string) : state := mkState path None.

(** [connect]: the connection is assigned as soon as the file is open; the
    schema script creates the tables that are absent and keeps the rows of
    those that exist; an exception of either step is logged and raised
    again. *)
Definition connect (sqlite_open : string → Opening) : Py state unit :=
  py_try
    (λ db,
       match sqlite_open (db_path db) with
       | Opened st => (Ok tt, mkState (db_path db) (Some st))
       | OpenError e => (Raise e, db)
       | SchemaError st e => (Raise e, mkState (db_path db) (Some st))
       end)
    (λ e, py_raise e).

(** [self.connection.<method>]: an [AttributeError] while unconnected. *)
Definition the_connection : Py state Store :=
  db <- py_get ;;
  match connection db with
  | Some st => py_ret st
  | None => py_raise AttributeError
  end.

Definition set_connection (st : Store) : Py state unit :=
  py_modify (λ db, mkState (db_path db) (Some st)).

Definition get_clone_generation (clone_id : option string)
  : Py state Z :=
  match clone_id with
  | None => py_ret 0%Z
  | Some cid =>
      if negb (truthy clone_id) then py_ret 0%Z
      else
        st <- the_connection ;;
        py_ret (match clones st !! cid with
                | Some row => row_generation row
                | None => 0%Z
                end)
  end.

(** The [INSERT INTO clones]: the primary key must be fresh. *)
Definition insert_clone (clone_id : string) (row : CloneRow)
  : Py state unit :=
  st <- the_connection ;;
  match clones st !! clone_id with
  | Some _ => py_raise IntegrityError
  | None =>
      set_connection
        (mkStore (<[clone_id := row]> (clones st))
                 (target_evaluations st) (learning_data_table st))
  end.

Definition register_clone (clone_id : string) (parent_id : option string)
    (target_ip : option string) (now : string) : Py state bool :=
  py_try
    (generation <- (if truthy parent_id
                    then get_clone_generation parent_id
                    else py_ret 0%Z) ;;
     let generation := (generation + 1)%Z in
     insert_clone clone_id
       (mkCloneRow parent_id target_ip generation now now "active" None) ;;;
     py_ret true)
    (λ _, py_ret false).

(** The [UPDATE clones SET status, last_contact WHERE clone_id]: rows
    that do not match are left alone. *)
Definition update_clone_status (clone_id : string) (status : string)
    (now : string) : Py state unit :=
  st <- the_connection ;;
  set_connection
    (mkStore
       (alter (λ row, mkCloneRow (row_parent_id row) (row_target_ip row)
                        (row_generation row) (row_created_at row)
                        now status (row_quantum_signature row))
              clone_id (clones st))
       (target_evaluations st) (learning_data_table st)).

Definition terminate_clone (clone_id : string) (now : string)
  : Py state unit :=
  update_clone_status clone_id "terminated" now.

Definition store_target_evaluation (target_ip : string) (ev : Evaluation)
  : Py state unit :=
  st <- the_connection ;;
  set_connection
    (mkStore (clones st)
       (target_evaluations st ++
          [mkEvaluation target_ip (ev_risk_score ev)
             (ev_security_risk ev) (ev_detection_risk ev)
             (ev_success_probability ev) (ev_strategic_value ev)
             (ev_recommendation ev) (ev_evaluated_at ev)])
       (learning_data_table st)).

Definition store_learning_data (learning_entry : LearningEntry)
  : Py state unit :=
  st <- the_connection ;;
  set_connection
    (mkStore (clones st) (target_evaluations st)
       (learning_data_table st ++ [learning_entry])).

(** [ORDER BY timestamp DESC] *)
Definition newer_first (a b : LearningEntry) : Prop :=
  String.leb (le_timestamp b) (le_timestamp a) = true.

#[global] Instance newer_first_dec a b : Decision (newer_first a b).
Proof. unfold newer_first. apply _. Defined.

Definition load_learning_data : Py state (list LearningEntry) :=
  st <- the_connection ;;
  py_ret (take 1000 (merge_sort newer_first (learning_data_table st))).

(** Every stored generation is at least 1. *)
Definition generations_positive (db : state) : Prop :=
  ∀ st cid row,
    connection db = Some st → clones st !! cid = Some row →
    (1 ≤ row_generation row)%Z.

(** The dict built by [get_clone_statistics]. *)
Record CloneStatistics : Type := mkCloneStatistics {
  total_clones : nat;
  active_clones : nat;
  max_generation : Z;
  targets_evaluated : nat
}.

(** [WHERE status = 'active'] *)
Definition is_active (entry : string * CloneRow) : Prop :=
  row_status entry.2 = "active".

(** [SELECT MAX(generation) FROM clones]: [None] is the NULL of an empty
    table. *)
Definition select_max_generation (st : Store) : option Z :=
  match (λ entry : string * CloneRow, row_generation entry.2)
          <$> map_to_list (clones st) with
  | [] => None
  | g :: gs => Some (foldr Z.max g gs)
  end.

Definition get_clone_statistics : Py state CloneStatistics :=
  st <- the_connection ;;
  py_ret (mkCloneStatistics
            (size (clones st))
            (size (filter is_active (clones st)))
            (match select_max_generation st with
             | Some g => if Z.eqb g 0 then 0%Z else g
             | None => 0%Z
             end)
            (length (remove_dups (ev_target_ip <$> target_evaluations st)))).

(** The stored generation of a clone, read back from the table. *)
Definition stored_generation (db : state) (clone_id : string)
  : option Z :=
  st ← connection db; row ← clones st !! clone_id; Some (row_generation row).

Definition stored_status (db : state) (clone_id : string)
  : option string :=
  st ← connection db; row ← clones st !! clone_id; Some (row_status row).

End DatabaseHandler.

(** ** Target intelligence snapshot (the dict built by [gather_intelligence]) *)

Record OsFingerprint : Type := mkOsFingerprint {
  os : string;
  os_version : string
}.

Record OpenPort : Type := mkOpenPort {
  port : Z;
  port_service : string;
  port_state : string
}.

Record Service : Type := mkService {
  service_name : string;
  service_version : string;
  service_port : Z
}.

Record Vulnerability : Type := mkVulnerability {
  cve : string;
  severity : string;
  description : string;
  exploitable : bool
}.

Record SecurityPosture : Type := mkSecurityPosture {
  firewall_detected : bool;
  ids_ips_active : bool;
  patch_level : string;
  hardening_score : Q;
  overall_risk_label : string
}.

Record NetworkTopology : Type := mkNetworkTopology {
  subnet : string;
  gateway : string;
  neighbors : Z;
  network_type : string
}.

Record TargetInfo : Type := mkTargetInfo {
  ip_address : string;
  timestamp : string;
  os_fingerprint : OsFingerprint;
  open_ports : list OpenPort;
  services : list Service;
  vulnerabilities : list Vulnerability;
  security_posture : SecurityPosture;
  network_topology : NetworkTopology
}.

(** The dict built by [_extract_features]. *)
Record Features : Type := mkFeatures {
  os_type : string;
  num_open_ports : Z;
  num_vulnerabilities : Z;
  has_firewall : bool;
  has_ids : bool;
  feat_patch_level : string;
  feat_hardening_score : Q
}.

(** ** Numbers *)

Definition len {A} (l : list A) : Z := Z.of_nat (length l).

Definition Qlt_bool (x y : Q) : bool := negb (Qle_bool y x).


(** A stored score no further than [0.0005] from the computed one. *)
Definition rounded_from (stored computed : Q) : Prop :=
  (computed - 0.0005 <= stored <= computed + 0.0005)%Q.

(** [round(x, 3)]: the nearest multiple of [1/1000], a tie going to the even
    one. *)
Definition round_half_even (y : Q) : Z :=
  let f := Qfloor y in
  let r := (y - inject_Z f)%Q in
  if Qlt_bool r 0.5 then f
  else if Qlt_bool 0.5 r then (f + 1)%Z
  else if Z.even f then f else (f + 1)%Z.

Definition round3 (x : Q) : Q :=
  (inject_Z (round_half_even (x * 1000)) / 1000)%Q.

(** [d.get(key, default)] on a dict literal given as an association list. *)
Fixpoint dict_get {V} (d : list (string * V)) (key : string) (default : V) : V :=
  match d with
  | [] => default
  | (k, v) :: d' => if String.eqb k key then v else dict_get d' key default
  end.

(** [x in names] *)
Definition elem_string (x : string) (names : list string) : bool :=
  existsb (String.eqb x) names.

(** ** Decision engine ([ai_decision_engine.py]) *)

(** The six-key dict assigned by [initialize]; the engine holds the empty
    dict ([None] here) until then. *)
Record StrategyParameters : Type := mkStrategyParameters {
  target_selection_weight_security : Q;
  target_selection_weight_spread : Q;
  replication_rate_limit : nat;
  risk_threshold : Q;
  learning_rate : Q;
  exploration_rate : Q
}.

Module AIDecisionEngine.

Record state : Type := mkState {
  db_handler : DatabaseHandler.state;
  learning_data : list LearningEntry;
  decision_history : list Evaluation;
  strategy_parameters : option StrategyParameters;
  risk_tolerance : Q
  }.

Definition __init__ (db : DatabaseHandler.state) : state :=
  mkState db [] [] None 0.6.

Definition default_strategy_parameters : StrategyParameters :=
  mkStrategyParameters 0.7 0.3 5 0.65 0.01 0.2.

Definition set_db_handler (db : DatabaseHandler.state) (self : state) : state :=
  mkState db (learning_data self) (decision_history self)
    (strategy_parameters self) (risk_tolerance self).

(** A call [self.db_handler.<method>(...)]. *)
Definition on_db {A} (m : Py DatabaseHandler.state A) : Py state A :=
  py_zoom db_handler set_db_handler m.

Definition initialize : Py state unit :=
  loaded <- on_db DatabaseHandler.load_learning_data ;;
  py_modify (λ self,
    mkState (db_handler self) loaded (decision_history self)
      (Some default_strategy_parameters) (risk_tolerance self)).

Definition _extract_features (target_info : TargetInfo) : Features :=
  mkFeatures
    (os (os_fingerprint target_info))
    (len (open_ports target_info))
    (len (vulnerabilities target_info))
    (firewall_detected (security_posture target_info))
    (ids_ips_active (security_posture target_info))
    (patch_level (security_posture target_info))
    (hardening_score (security_posture target_info)).

Definition _assess_security_risk (target_info : TargetInfo) : Q :=
  let security := security_posture target_info in
  let risk := 0%Q in
  let risk := if firewall_detected security then (risk + 0.3)%Q else risk in
  let risk := if ids_ips_active security then (risk + 0.3)%Q else risk in
  let risk := (risk + hardening_score security * 0.4)%Q in
  Qmin risk 1.0.

Definition _assess_detection_risk (target_info : TargetInfo) : Q :=
  let security := security_posture target_info in
  let vuln_count := len (vulnerabilities target_info) in
  let vuln_factor := Qmax 0 (1 - inject_Z vuln_count * 0.2) in
  let monitoring_factor := if ids_ips_active security then 0.5%Q else 0.1%Q in
  let patch_factors :=
    [("current", 0.7%Q); ("outdated", 0.4%Q); ("critical", 0.2%Q)] in
  let patch_factor := dict_get patch_factors (patch_level security) 0.5%Q in
  (vuln_factor * 0.3 + monitoring_factor * 0.4 + patch_factor * 0.3)%Q.

Definition _predict_success (features : Features) : Q :=
  let score := 0.5%Q in
  let score := (score + inject_Z (num_vulnerabilities features) * 0.1)%Q in
  let score := if negb (has_firewall features) then (score + 0.15)%Q else score in
  let score := if negb (has_ids features) then (score + 0.15)%Q else score in
  let patch_penalties :=
    [("current", (-0.2)%Q); ("outdated", (-0.05)%Q); ("critical", 0.1%Q)] in
  let score :=
    (score + dict_get patch_penalties (feat_patch_level features) 0)%Q in
  let score := (score - feat_hardening_score features * 0.2)%Q in
  Qmax 0 (Qmin score 1.0).

(** One turn of the loop over [services]. *)
Definition service_value (value : Q) (service : Service) : Q :=
  if elem_string (service_name service) ["MySQL"; "PostgreSQL"; "MongoDB"]
  then (value + 0.15)%Q
  else if elem_string (service_name service) ["Apache"; "nginx"]
  then (value + 0.1)%Q
  else value.

Definition _assess_strategic_value (target_info : TargetInfo) : Q :=
  let value := 0.3%Q in
  let value := (value + inject_Z (len (open_ports target_info)) * 0.05)%Q in
  let neighbors := neighbors (network_topology target_info) in
  let value := (value + Qmin (inject_Z neighbors * 0.02) 0.3)%Q in
  let value := fold_left service_value (services target_info) value in
  Qmin value 1.0.

Definition _make_recommendation (self : state) (risk value success_prob : Q)
  : string :=
  let expected_value := (value * success_prob - risk)%Q in
  if Qlt_bool 0.3 expected_value && Qlt_bool risk (risk_tolerance self)
  then "REPLICATE"
  else if Qlt_bool 0 expected_value && Qlt_bool risk 0.8
  then "MONITOR"
  else "AVOID".

(** The combined risk score of [evaluate_target], before rounding. *)
Definition overall_risk_of (target_info : TargetInfo) : Q :=
  let security_risk := _assess_security_risk target_info in
  let detection_risk := _assess_detection_risk target_info in
  let success_probability :=
    _predict_success (_extract_features target_info) in
  (security_risk * 0.4 + detection_risk * 0.4
   + (1 - success_probability) * 0.2)%Q.

Definition evaluate_target (target_info : TargetInfo) (now : string)
  : Py state Evaluation :=
  self <- py_get ;;
  let features := _extract_features target_info in
  let security_risk := _assess_security_risk target_info in
  let detection_risk := _assess_detection_risk target_info in
  let success_probability := _predict_success features in
  let overall_risk := overall_risk_of target_info in
  let strategic_value := _assess_strategic_value target_info in
  let recommendation :=
    _make_recommendation self overall_risk strategic_value
      success_probability in
  let evaluation :=
    mkEvaluation (ip_address target_info) (round3 overall_risk)
      (round3 security_risk) (round3 detection_risk)
      (round3 success_probability) (round3 strategic_value)
      recommendation now in
  py_put (mkState (db_handler self) (learning_data self)
            (decision_history self ++ [evaluation])
            (strategy_parameters self) (risk_tolerance self)) ;;;
  py_ret evaluation.

(** [l[-n:]]: the last [n] elements, all of [l] when it is shorter. *)
Definition last_n {A} (n : nat) (l : list A) : list A :=
  drop (length l - n) l.

Definition is_success (x : LearningEntry) : Prop := le_outcome x = "success".

Definition set_risk_tolerance (tolerance : Q) (self : state) : state :=
  mkState (db_handler self) (learning_data self) (decision_history self)
    (strategy_parameters self) tolerance.

Definition _update_strategy : Py state unit :=
  py_modify (λ self,
    let recent_data := last_n 100 (learning_data self) in
    if (10 <? length recent_data)%nat then
      let success_count := length (filter is_success recent_data) in
      let success_rate :=
        (inject_Z (Z.of_nat success_count)
         / inject_Z (Z.of_nat (length recent_data)))%Q in
      if Qlt_bool 0.7 success_rate then
        set_risk_tolerance (Qmin (risk_tolerance self + 0.05) 0.8) self
      else if Qlt_bool success_rate 0.3 then
        set_risk_tolerance (Qmax (risk_tolerance self - 0.05) 0.4) self
      else self
    else self).

(** The body shared by [learn_from_success] and [learn_from_failure]. *)
Definition learn (target_ip outcome now : string) : Py state unit :=
  let learning_entry := mkLearningEntry target_ip outcome now in
  py_modify (λ self,
    mkState (db_handler self) (learning_data self ++ [learning_entry])
      (decision_history self) (strategy_parameters self)
      (risk_tolerance self)) ;;;
  _update_strategy ;;;
  on_db (DatabaseHandler.store_learning_data learning_entry).

Definition learn_from_success (target_ip now : string) : Py state unit :=
  learn target_ip "success" now.

Definition learn_from_failure (target_ip now : string) : Py state unit :=
  learn target_ip "failure" now.

(** [sum(f(d) for d in l) / len(l)] *)
Definition average (f : Evaluation → Q) (l : list Evaluation) : Q :=
  (foldl (λ acc d, acc + f d) 0 l / inject_Z (Z.of_nat (length l)))%Q.

Definition optimize_strategy : Py state unit :=
  self <- py_get ;;
  if (50 <? length (decision_history self))%nat then
    let recent_decisions := last_n 50 (decision_history self) in
    let avg_risk := average ev_risk_score recent_decisions in
    let avg_value := average ev_strategic_value recent_decisions in
    if Qlt_bool 0.7 avg_risk then
      match strategy_parameters self with
      | None => py_raise KeyError
      | Some sp =>
          py_put (mkState (db_handler self) (learning_data self)
                    (decision_history self)
                    (Some (mkStrategyParameters
                             (target_selection_weight_security sp)
                             (target_selection_weight_spread sp)
                             (replication_rate_limit sp)
                             (Qmax (risk_threshold sp - 0.05) 0.5)
                             (learning_rate sp) (exploration_rate sp)))
                    (risk_tolerance self))
      end
    else py_ret tt
  else py_ret tt.

(** [self.strategy_parameters[key]]: a [KeyError] on the empty dict. *)
Definition the_strategy_parameters : Py state StrategyParameters :=
  self <- py_get ;;
  match strategy_parameters self with
  | Some sp => py_ret sp
  | None => py_raise KeyError
  end.

Section Draws.

(** [random.sample(population, k)] *)
Variable random_sample : list string → nat → list string.

(** [explore_draw] is the value of [random.random()], [randint_draw] the
      value of [random.randint(1, 3)]. *)
Definition select_targets (available_targets : list string)
      (explore_draw : Q) (randint_draw : nat) : Py state (list string) :=
    sp <- the_strategy_parameters ;;
    let max_targets := replication_rate_limit sp in
    sp' <- the_strategy_parameters ;;
    if Qlt_bool explore_draw (exploration_rate sp')
    then
      let num_select := Nat.min randint_draw (length available_targets) in
      py_ret (random_sample available_targets num_select)
    else
      let num_select := Nat.min max_targets (length available_targets) in
      py_ret (take num_select available_targets).

End Draws.

End AIDecisionEngine.

(** ** Replication-state manager ([quantum_replication.py]) *)

Record QuantumState : Type := mkQuantumState {
  coherence : Q;
  entanglement_strength : Q;
  superposition_active : bool;
  measurement_timestamp : string
}.

(** A value of [entanglement_pairs]; the tests store pairs without
    [established_at]. *)
Record EntanglementPair : Type := mkEntanglementPair {
  parent : string;
  key : string;
  established_at : option string
}.

Record Connection : Type := mkConnection {
  conn_target_ip : string;
  conn_established_at : string;
  technique : string;
  encrypted : bool;
  protocol : string;
  conn_status : string
}.

Record CloneConfig : Type := mkCloneConfig {
  cfg_clone_id : string;
  cfg_parent_id : string;
  cfg_generation : Z;
  autonomous_mode : bool;
  stealth_level : string;
  replication_enabled : bool;
  self_destruct_conditions : list (string * bool)
}.

Record Package : Type := mkPackage {
  pkg_clone_id : string;
  pkg_parent_id : string;
  pkg_version : string;
  source_files : list (string * string);
  config : CloneConfig;
  quantum_signature : string;
  pkg_created_at : string
}.

Record CloneInfo : Type := mkCloneInfo {
  ci_clone_id : string;
  ci_parent_id : string;
  ci_target_ip : string;
  ci_created_at : string;
  entanglement_key : string;
  ci_status : string;
  ci_quantum_state : QuantumState
}.

(** The two dicts [check_clone_status] returns. *)
Inductive CloneStatus : Type :=
  | Unhealthy (reason : string)
  | Healthy (clone_id : string) (quantum_coherence : Q) (last_contact : string).

Definition healthy (status : CloneStatus) : bool :=
  match status with
  | Unhealthy _ => false
  | Healthy _ _ _ => true
  end.

Definition ascii_upper (c : ascii) : ascii :=
  let n := nat_of_ascii c in
  if (97 <=? n)%nat && (n <=? 122)%nat then ascii_of_nat (n - 32) else c.

Fixpoint upper (s : string) : string :=
  match s with
  | EmptyString => EmptyString
  | String c s' => String (ascii_upper c) (upper s')
  end.

Module QuantumReplicator.

Record state : Type := mkState {
  db_handler : DatabaseHandler.state;
  quantum_state : gmap string QuantumState;
  entanglement_pairs : gmap string EntanglementPair
}.

Definition __init__ (db : DatabaseHandler.state) : state := mkState db ∅ ∅.

Definition set_db_handler (db : DatabaseHandler.state) (self : state) : state :=
  mkState db (quantum_state self) (entanglement_pairs self).

Definition set_quantum_state (m : gmap string QuantumState) (self : state)
  : state :=
  mkState (db_handler self) m (entanglement_pairs self).

Definition set_entanglement_pairs (m : gmap string EntanglementPair)
    (self : state) : state :=
  mkState (db_handler self) (quantum_state self) m.

(** A call [self.db_handler.<method>(...)]. *)
Definition on_db {A} (m : Py DatabaseHandler.state A) : Py state A :=
  py_zoom db_handler set_db_handler m.

Definition files_to_replicate : list string :=
  ["autonomous_replicator_7g.py"; "quantum_replication.py";
   "stealth_operations.py"; "ai_decision_engine.py"; "database_handler.py"].

Section Environment.

(** Digests, the base64 coder and the files next to the module. *)
Variables sha256_hexdigest sha512_hexdigest md5_hexdigest : string → string.
Variable b64encode : string → string.
Variable read_file : string → option string.

Definition _generate_quantum_id (target_ip parent_id now : string) : string :=
  let quantum_seed := parent_id ++ "-" ++ target_ip ++ "-" ++ now in
  let quantum_hash := String.substring 0 16 (sha256_hexdigest quantum_seed) in
  "QC-" ++ upper quantum_hash.

(** A file that is not found is skipped. *)
Definition _gather_source_files : list (string * string) :=
  omap (λ filename, content ← read_file filename;
                    Some (filename, b64encode content))
       files_to_replicate.

Definition _calculate_generation (parent_id : string) : Py state Z :=
  parent_gen <- on_db (DatabaseHandler.get_clone_generation (Some parent_id)) ;;
  py_ret (parent_gen + 1)%Z.

Definition _generate_clone_config (clone_id parent_id : string)
  : Py state CloneConfig :=
  generation <- _calculate_generation parent_id ;;
  py_ret (mkCloneConfig clone_id parent_id generation true "maximum" true
            [("detected", true); ("isolated", true);
             ("parent_terminated", false)]).

Definition _generate_quantum_signature (clone_id now : string) : string :=
  sha512_hexdigest (clone_id ++ "-" ++ now).

Definition _create_replication_package (clone_id parent_id now : string)
  : Py state Package :=
  let source_files := _gather_source_files in
  config <- _generate_clone_config clone_id parent_id ;;
  let quantum_signature := _generate_quantum_signature clone_id now in
  py_ret (mkPackage clone_id parent_id "7.0" source_files config
            quantum_signature now).

(** [urandom_hex] is [os.urandom(32).hex()]. *)
Definition _establish_quantum_entanglement (clone_id parent_id
    urandom_hex : string) : string :=
  sha256_hexdigest (parent_id ++ "-" ++ clone_id ++ "-" ++ urandom_hex).

(** The simulated verification always succeeds. *)
Definition _verify_replication (clone_id : string) : bool * string * string :=
  (true, clone_id, md5_hexdigest clone_id).

Definition _capture_quantum_state (clone_id now : string)
  : Py state QuantumState :=
  let st := mkQuantumState 0.99 0.95 true now in
  self <- py_get ;;
  py_put (set_quantum_state (<[clone_id := st]> (quantum_state self)) self) ;;;
  py_ret st.

Definition replicate (target_ip : string) (connection : Connection)
    (parent_id now urandom_hex : string) : Py state CloneInfo :=
  py_try
    (let clone_id := _generate_quantum_id target_ip parent_id now in
     package <- _create_replication_package clone_id parent_id now ;;
     let entanglement_key :=
       _establish_quantum_entanglement clone_id parent_id urandom_hex in
     let '(success, _, _) := _verify_replication clone_id in
     if success then
       qs <- _capture_quantum_state clone_id now ;;
       let clone_info :=
         mkCloneInfo clone_id parent_id target_ip now entanglement_key
           "active" qs in
       self <- py_get ;;
       py_put (set_entanglement_pairs
                 (<[clone_id := mkEntanglementPair parent_id entanglement_key
                                  (Some now)]> (entanglement_pairs self))
                 self) ;;;
       py_ret clone_info
     else py_raise (Exception_ "Replication verification failed"))
    (λ e, py_raise e).

Definition check_clone_status (clone_id now : string) : Py state CloneStatus :=
  self <- py_get ;;
  match entanglement_pairs self !! clone_id with
  | None => py_ret (Unhealthy "No entanglement found")
  | Some _ =>
      py_ret (Healthy clone_id
                (match quantum_state self !! clone_id with
                 | Some qs => coherence qs
                 | None => 0%Q
                 end)
                now)
  end.

Definition repair_clone (clone_id now urandom_hex : string) : Py state bool :=
  py_try
    (self <- py_get ;;
     match entanglement_pairs self !! clone_id with
     | Some entry =>
         let parent_id := parent entry in
         let new_key :=
           _establish_quantum_entanglement clone_id parent_id urandom_hex in
         py_put (set_entanglement_pairs
                   (<[clone_id := mkEntanglementPair (parent entry) new_key
                                    (established_at entry)]>
                      (entanglement_pairs self))
                   self)
     | None => py_ret tt
     end ;;;
     _capture_quantum_state clone_id now ;;;
     py_ret true)
    (λ _, py_ret false).

Definition terminate_clone (clone_id now : string) : Py state bool :=
  py_try
    (py_modify (λ self,
       if decide (is_Some (entanglement_pairs self !! clone_id))
       then set_entanglement_pairs (delete clone_id (entanglement_pairs self))
              self
       else self) ;;;
     py_modify (λ self,
       if decide (is_Some (quantum_state self !! clone_id))
       then set_quantum_state (delete clone_id (quantum_state self)) self
       else self) ;;;
     on_db (DatabaseHandler.terminate_clone clone_id now) ;;;
     py_ret true)
    (λ _, py_ret false).

End Environment.

End QuantumReplicator.

(** ** Remediation choice ([AIDecisionEngine.decide_clone_action]) *)

Definition ascii_lower (c : ascii) : ascii :=
  let n := nat_of_ascii c in
  if (65 <=? n)%nat && (n <=? 90)%nat then ascii_of_nat (n + 32) else c.

Fixpoint lower (s : string) : string :=
  match s with
  | EmptyString => EmptyString
  | String c s' => String (ascii_lower c) (lower s')
  end.

(** [needle in haystack] *)
Fixpoint contains (needle haystack : string) : bool :=
  String.prefix needle haystack
  || match haystack with
     | EmptyString => false
     | String _ rest => contains needle rest
     end.

(** [status.get('reason', '')] *)
Definition status_reason (status : CloneStatus) : string :=
  match status with
  | Unhealthy reason => reason
  | Healthy _ _ _ => ""
  end.

(** The method reads nothing of the engine; it is kept apart from the
    engine's module because it consumes the status dicts defined above. *)
Definition decide_clone_action (clone_id : string) (status : CloneStatus)
  : string :=
  let reason := status_reason status in
  if contains "entanglement" (lower reason) then "repair"
  else if contains "detected" (lower reason) then "terminate"
  else "replicate_replacement".

(** ** Reconnaissance simulator ([stealth_operations.py]) *)

(** What [ipaddress.ip_network(s, strict=False)] yields: [str(network)] and
    [str(host)] for the hosts of [network.hosts()], in order. *)
Record Network : Type := mkNetwork {
  network_str : string;
  network_hosts : list string
}.

(** The draws of one call of [gather_intelligence]. *)
Record IntelligenceDraw : Type := mkIntelligenceDraw {
  drawn_os : OsFingerprint;
  drawn_ports : list OpenPort;
  drawn_services : list Service;
  drawn_vulnerabilities : list Vulnerability;
  drawn_security : SecurityPosture;
  drawn_neighbors : Z;
  drawn_network_type : string
}.

(** [s.split(sep)] for a one-character separator. *)
Fixpoint split_on (sep : ascii) (s : string) : list string :=
  match s with
  | EmptyString => [EmptyString]
  | String c s' =>
      if Ascii.eqb c sep then EmptyString :: split_on sep s'
      else match split_on sep s' with
           | [] => [String c EmptyString]
           | w :: ws => String c w :: ws
           end
  end.

Module StealthModule.

Record state : Type := mkState {
  active : bool;
  stealth_level : string;
  evasion_techniques : list string;
  discovered_targets : gmap string TargetInfo
}.

Definition __init__ : state := mkState false "maximum" [] ∅.

Definition activate : Py state unit :=
  py_modify (λ self,
    mkState true (stealth_level self)
      ["traffic_randomization"; "packet_fragmentation"; "timing_obfuscation";
       "protocol_mimicry"; "proxy_chaining"]
      (discovered_targets self)).

Definition deactivate : Py state unit :=
  py_modify (λ self,
    mkState false (stealth_level self) [] (discovered_targets self)).

Definition _detect_local_network : string := "192.168.1.0/24".

(** [alive_draw] is the value of [random.random()]. *)
Definition _is_host_alive (alive_draw : Q) : bool := Qlt_bool 0.7 alive_draw.

Section Environment.

(** The address parser of the standard library; [None] is its
    [ValueError]. *)
Variable ip_network : string → option Network.
(** [random.shuffle], and the value of [random.random()] in the [i]-th test
    of a scan. *)
Variable random_shuffle : list string → list string.
Variable alive_draws : nat → Q.

(** The loop [for host in hosts[:50]], from the [i]-th test on. *)
Fixpoint scan_loop (hosts : list string) (i : nat) (targets : list string)
  : list string :=
  match hosts with
  | [] => targets
  | target_ip :: rest =>
      scan_loop rest (S i)
        (if _is_host_alive (alive_draws i) then targets ++ [target_ip]
         else targets)
  end.

Definition scan_targets (network_range : option string)
  : Py state (list string) :=
  let network_range :=
    if negb (truthy network_range) then _detect_local_network
    else default "" network_range in
  let targets := [] in
  py_try
    (match ip_network network_range with
     | None => py_raise ValueError
     | Some network =>
         let hosts := network_hosts network in
         let hosts := random_shuffle hosts in
         py_ret (scan_loop (take 50 hosts) 0 targets)
     end)
    (λ _, py_ret []).

Definition _map_topology (ip : string) (neighbors : Z) (network_type : string)
  : Py state NetworkTopology :=
  match ip_network (ip ++ "/24") with
  | None => py_raise ValueError
  | Some network =>
      py_ret (mkNetworkTopology (network_str network)
                (String.concat "." (removelast (split_on "." ip) ++ ["1"]))
                neighbors network_type)
  end.

Definition gather_intelligence (target_ip now : string)
    (draw : IntelligenceDraw) : Py state TargetInfo :=
  topology <- _map_topology target_ip (drawn_neighbors draw)
                (drawn_network_type draw) ;;
  let intelligence :=
    mkTargetInfo target_ip now (drawn_os draw) (drawn_ports draw)
      (drawn_services draw) (drawn_vulnerabilities draw)
      (drawn_security draw) topology in
  py_modify (λ self,
    mkState (active self) (stealth_level self) (evasion_techniques self)
      (<[target_ip := intelligence]> (discovered_targets self))) ;;;
  py_ret intelligence.

(** [choice_draw] selects the element [random.choice] returns; the choice
    from an empty list is an [IndexError]. *)
Definition establish_connection (target_ip now : string) (choice_draw : nat)
  : Py state Connection :=
  self <- py_get ;;
  match evasion_techniques self
          !! (choice_draw mod length (evasion_techniques self))%nat with
  | None => py_raise IndexError
  | Some technique =>
      py_ret (mkConnection target_ip now technique true "custom" "active")
  end.

End Environment.

End StealthModule.

(** ** Orchestrator ([ouroboros_zero.py]) *)

(** The clock reading and the draws of one call of [replicate_to_target]. *)
Record Draws : Type := mkDraws {
  now : string;
  intelligence_draw : IntelligenceDraw;
  choice_draw : nat;
  urandom_hex : string
}.

Module OuroborosZero.

(** The three components hold a reference to the one [DatabaseHandler]
    object that the orchestrator creates.  The object lives in [db_handler];
    the [db_handler] field inside a component is resolved to it when a
    method of the component runs, and stored back when it returns. *)
Record state : Type := mkState {
  config_path : string;
  running : bool;
  clone_id : string;
  db_handler : DatabaseHandler.state;
  quantum_replicator : QuantumReplicator.state;
  stealth_module : StealthModule.state;
  ai_engine : AIDecisionEngine.state;
  replication_targets : list string;
  active_connections : gmap string Connection;
  clone_registry : gmap string CloneInfo
}.

(** [generated_id] is ["OUROBOROS-" + now.strftime("%Y%m%d%H%M%S")]. *)
Definition __init__ (config_path generated_id : string) : state :=
  let db := DatabaseHandler.__init__ "data/replicator.db" in
  mkState config_path false generated_id db
    (QuantumReplicator.__init__ db) StealthModule.__init__
    (AIDecisionEngine.__init__ db) [] ∅ ∅.

Definition set_db_handler (db : DatabaseHandler.state) (self : state) : state :=
  mkState (config_path self) (running self) (clone_id self) db
    (quantum_replicator self) (stealth_module self) (ai_engine self)
    (replication_targets self) (active_connections self)
    (clone_registry self).

Definition set_stealth_module (sm : StealthModule.state) (self : state)
  : state :=
  mkState (config_path self) (running self) (clone_id self) (db_handler self)
    (quantum_replicator self) sm (ai_engine self)
    (replication_targets self) (active_connections self)
    (clone_registry self).

Definition get_quantum_replicator (self : state) : QuantumReplicator.state :=
  QuantumReplicator.set_db_handler (db_handler self) (quantum_replicator self).

Definition set_quantum_replicator (qr : QuantumReplicator.state)
    (self : state) : state :=
  mkState (config_path self) (running self) (clone_id self)
    (QuantumReplicator.db_handler qr) qr (stealth_module self)
    (ai_engine self) (replication_targets self) (active_connections self)
    (clone_registry self).

Definition get_ai_engine (self : state) : AIDecisionEngine.state :=
  let e := ai_engine self in
  AIDecisionEngine.mkState (db_handler self)
    (AIDecisionEngine.learning_data e) (AIDecisionEngine.decision_history e)
    (AIDecisionEngine.strategy_parameters e)
    (AIDecisionEngine.risk_tolerance e).

Definition set_ai_engine (e : AIDecisionEngine.state) (self : state) : state :=
  mkState (config_path self) (running self) (clone_id self)
    (AIDecisionEngine.db_handler e) (quantum_replicator self)
    (stealth_module self) e (replication_targets self)
    (active_connections self) (clone_registry self).

(** The [clones] table behind the orchestrator's handler, if connected. *)
Definition clones_of (self : state) : option (gmap string CloneRow) :=
  clones <$> DatabaseHandler.connection (db_handler self).

Definition on_db {A} (m : Py DatabaseHandler.state A) : Py state A :=
  py_zoom db_handler set_db_handler m.
Definition on_stealth {A} (m : Py StealthModule.state A) : Py state A :=
  py_zoom stealth_module set_stealth_module m.
Definition on_replicator {A} (m : Py QuantumReplicator.state A) : Py state A :=
  py_zoom get_quantum_replicator set_quantum_replicator m.
Definition on_engine {A} (m : Py AIDecisionEngine.state A) : Py state A :=
  py_zoom get_ai_engine set_ai_engine m.

Section Environment.

Variables sha256_hexdigest sha512_hexdigest md5_hexdigest : string → string.
Variable b64encode : string → string.
Variable read_file : string → option string.
Variable ip_network : string → option Network.
Variable sqlite_open : string → Opening.

Definition initialize (now : string) : Py state bool :=
  py_try
    (on_db (DatabaseHandler.connect sqlite_open) ;;;
     self <- py_get ;;
     on_db (DatabaseHandler.register_clone (clone_id self) None None now) ;;;
     on_engine AIDecisionEngine.initialize ;;;
     on_stealth StealthModule.activate ;;;
     py_ret true)
    (λ _, py_ret false).

Definition scan_network (random_shuffle : list string → list string)
    (alive_draws : nat → Q) : Py state (list string) :=
  py_try
    (targets <- on_stealth (StealthModule.scan_targets ip_network
                              random_shuffle alive_draws None) ;;
     py_modify (λ self,
       mkState (config_path self) (running self) (clone_id self)
         (db_handler self) (quantum_replicator self) (stealth_module self)
         (ai_engine self) targets (active_connections self)
         (clone_registry self)) ;;;
     py_ret targets)
    (λ _, py_ret []).

Definition evaluate_target (target_ip : string) (d : Draws)
  : Py state Evaluation :=
  target_info <- on_stealth (StealthModule.gather_intelligence ip_network
                               target_ip (now d) (intelligence_draw d)) ;;
  evaluation <- on_engine (AIDecisionEngine.evaluate_target target_info
                             (now d)) ;;
  on_db (DatabaseHandler.store_target_evaluation target_ip evaluation) ;;;
  py_ret evaluation.

Definition replicate_to_target (target_ip : string) (d : Draws)
  : Py state bool :=
  py_try
    (evaluation <- evaluate_target target_ip d ;;
     if Qlt_bool 0.7 (ev_risk_score evaluation) then py_ret false
     else
       connection <- on_stealth (StealthModule.establish_connection target_ip
                                   (now d) (choice_draw d)) ;;
       py_modify (λ self,
         mkState (config_path self) (running self) (clone_id self)
           (db_handler self) (quantum_replicator self) (stealth_module self)
           (ai_engine self) (replication_targets self)
           (<[target_ip := connection]> (active_connections self))
           (clone_registry self)) ;;;
       self <- py_get ;;
       clone_info <- on_replicator
                       (QuantumReplicator.replicate sha256_hexdigest
                          sha512_hexdigest md5_hexdigest b64encode read_file
                          target_ip connection (clone_id self) (now d)
                          (urandom_hex d)) ;;
       py_modify (λ self,
         mkState (config_path self) (running self) (clone_id self)
           (db_handler self) (quantum_replicator self) (stealth_module self)
           (ai_engine self) (replication_targets self)
           (active_connections self)
           (<[ci_clone_id clone_info := clone_info]> (clone_registry self))) ;;;
       on_db (DatabaseHandler.register_clone (ci_clone_id clone_info)
                (Some (clone_id self)) (Some target_ip) (now d)) ;;;
       py_ret true)
    (λ _, py_ret false).

End Environment.

End OuroborosZero.

(** ** Package surface ([__init__.py]) *)

Module PackageSurface.

(** The names the module binds: the three markers and the five imports. *)
Definition namespace : list string :=
  ["__version__"; "__author__"; "__license__";
   "OuroborosZero"; "QuantumReplicator"; "StealthModule";
   "AIDecisionEngine"; "DatabaseHandler"].

(** The classes the package's modules define. *)
Definition defined_classes : list string :=
  ["OuroborosZero"; "QuantumReplicator"; "StealthModule";
   "AIDecisionEngine"; "DatabaseHandler"].

Definition __all__ : list string :=
  ["AutonomousReplicator"; "QuantumReplicator"; "StealthModule";
   "AIDecisionEngine"; "DatabaseHandler"].

(** [from package import *] looks every name of [__all__] up in the module;
    a name that is not bound is an [AttributeError]. *)
Definition import_star : outcome (list string) :=
  if forallb (λ name, elem_string name namespace) __all__
  then Ok __all__ else Raise AttributeError.

End PackageSurface.

(** ** Sample data, from the test suites *)

(** The snapshot of [test_extract_features]. *)
Definition test_target_info : TargetInfo :=
  mkTargetInfo "192.168.1.100" ""
    (mkOsFingerprint "Linux" "")
    [mkOpenPort 22 "" ""; mkOpenPort 80 "" ""]
    []
    [mkVulnerability "CVE-2024-0001" "" "" false]
    (mkSecurityPosture true false "current" 0.7 "")
    (mkNetworkTopology "" "" 10 "").

(** The draws behind the snapshot of [test_risk_assessment]: a firewall,
    an active IDS, current patches and a hardening score of 0.9. *)
Definition hardened_draw : IntelligenceDraw :=
  mkIntelligenceDraw (mkOsFingerprint "Linux" "Ubuntu 22.04")
    [mkOpenPort 22 "SSH" "open"]
    [mkService "OpenSSH" "8.2p1" 22]
    []
    (mkSecurityPosture true true "current" 0.9 "high")
    10 "flat".

(** The draws behind the snapshot of [test_extract_features]; its
    evaluation carries a risk score of 0.546 and the recommendation
    [AVOID]. *)
Definition moderate_draw : IntelligenceDraw :=
  mkIntelligenceDraw (mkOsFingerprint "Linux" "Ubuntu 22.04")
    [mkOpenPort 22 "SSH" "open"; mkOpenPort 80 "HTTP" "open"]
    []
    [mkVulnerability "CVE-2024-0001" "high" "Remote code execution" true]
    (mkSecurityPosture true false "current" 0.7 "medium")
    10 "flat".

(** The handler of the tests, once connected. *)
Definition test_db_handler : DatabaseHandler.state :=
  (DatabaseHandler.connect fresh_sqlite_open
     (DatabaseHandler.__init__ ":memory:")).2.

(** The subnet the simulator scans by default, as the standard parser
    reads it: the hosts [192.168.1.1] to [192.168.1.254]. *)
Definition sample_network : Network :=
  mkNetwork "192.168.1.0/24"
    (map (λ i : nat, "192.168.1." ++ pretty i) (seq 1 254)).

(** The standard parser at the strings the examples below pass to it: the
    default range, and the /24 network around the address of the tests.
    The empty string is not a network, and the parser rejects it; no other
    string is passed. *)
Definition sample_ip_network (s : string) : option Network :=
  if elem_string s ["192.168.1.0/24"; "192.168.1.100/24"]
  then Some sample_network
  else None.

(** * Properties *)

(** ** Truthiness and the monad *)

Lemma truthy_Some (s : string) : truthy (Some s) = true ↔ s ≠ "".
Proof.
  simpl. rewrite negb_true_iff. split.
  - intros H ->. discriminate.
  - intros H. apply String.eqb_neq. exact H.
Qed.

Lemma truthy_Some_false (s : string) : truthy (Some s) = false ↔ s = "".
Proof.
  simpl. rewrite negb_false_iff. apply String.eqb_eq.
Qed.

Lemma Qlt_bool_iff (x y : Q) : Qlt_bool x y = true ↔ (x < y)%Q.
Proof.
  unfold Qlt_bool. rewrite negb_true_iff. split.
  - intros H. apply Qnot_le_lt. intros Hle.
    apply Qle_bool_iff in Hle. congruence.
  - intros H. destruct (Qle_bool y x) eqn:E; [|reflexivity].
    apply Qle_bool_iff in E. apply Qlt_not_le in H. contradiction.
Qed.

Lemma Qlt_bool_false_iff (x y : Q) : Qlt_bool x y = false ↔ (y <= x)%Q.
Proof.
  unfold Qlt_bool. rewrite negb_false_iff. apply Qle_bool_iff.
Qed.

Section MonadFacts.

Context {S A B : Type}.

Lemma py_bind_Ok (m : Py S A) (k : A → Py S B) s a s' :
  m s = (Ok a, s') → py_bind m k s = k a s'.
Proof. intros H. unfold py_bind. rewrite H. reflexivity. Qed.

Lemma py_bind_Raise (m : Py S A) (k : A → Py S B) s e s' :
  m s = (Raise e, s') → py_bind m k s = (Raise e, s').
Proof. intros H. unfold py_bind. rewrite H. reflexivity. Qed.

Lemma py_try_Ok (m : Py S A) (h : exn → Py S A) s a s' :
  m s = (Ok a, s') → py_try m h s = (Ok a, s').
Proof. intros H. unfold py_try. rewrite H. reflexivity. Qed.

Lemma py_try_Raise (m : Py S A) (h : exn → Py S A) s e s' :
  m s = (Raise e, s') → py_try m h s = h e s'.
Proof. intros H. unfold py_try. rewrite H. reflexivity. Qed.

Lemma py_zoom_run {T} (get : S → T) (set : T → S → S) (m : Py T A) s r t' :
  m (get s) = (r, t') → py_zoom get set m s = (r, set t' s).
Proof. intros H. unfold py_zoom. rewrite H. reflexivity. Qed.

End MonadFacts.

(** ** Persistence layer *)

Section DatabaseHandlerFacts.

Import DatabaseHandler.

Lemma get_clone_generation_connected db st p :
  connection db = Some st → p ≠ "" →
  get_clone_generation (Some p) db
  = (Ok (match clones st !! p with
         | Some row => row_generation row
         | None => 0%Z
         end), db).
Proof.
  intros Hc Hp. unfold get_clone_generation.
  apply truthy_Some in Hp. rewrite Hp. simpl.
  unfold py_bind, the_connection, py_bind, py_get. rewrite Hc. reflexivity.
Qed.

Lemma insert_clone_fresh db st cid row :
  connection db = Some st → clones st !! cid = None →
  insert_clone cid row db
  = (Ok tt, mkState (db_path db)
              (Some (mkStore (<[cid := row]> (clones st))
                       (target_evaluations st) (learning_data_table st)))).
Proof.
  intros Hc Hf. unfold insert_clone, py_bind, the_connection, py_bind, py_get.
  rewrite Hc. simpl. rewrite Hf. reflexivity.
Qed.

(** What a registration on a connected handler with a fresh id does: it
    succeeds and inserts one row, whose generation is one more than the
    looked-up generation of a truthy parent id, and 1 otherwise. *)
Lemma register_clone_fresh db st cid parent tip now :
  connection db = Some st → clones st !! cid = None →
  register_clone cid parent tip now db
  = (Ok true,
     mkState (db_path db)
       (Some (mkStore
                (<[cid := mkCloneRow parent tip
                            (match parent with
                             | Some p =>
                                 if String.eqb p "" then 0
                                 else match clones st !! p with
                                      | Some row => row_generation row
                                      | None => 0
                                      end
                             | None => 0
                             end + 1)%Z now now "active" None]> (clones st))
                (target_evaluations st) (learning_data_table st)))).
Proof.
  intros Hc Hf. unfold register_clone.
  apply py_try_Ok.
  set (g := match parent with
            | Some p =>
                if String.eqb p "" then 0%Z
                else match clones st !! p with
                     | Some row => row_generation row
                     | None => 0%Z
                     end
            | None => 0%Z
            end).
  rewrite (py_bind_Ok _ _ db g db).
  - cbv zeta.
    erewrite py_bind_Ok; [|apply (insert_clone_fresh _ _ _ _ Hc Hf)].
    reflexivity.
  - subst g. destruct parent as [p|]; [|reflexivity].
    destruct (truthy (Some p)) eqn:Ep.
    + pose proof Ep as Hne. apply truthy_Some in Hne.
      rewrite (get_clone_generation_connected _ _ _ Hc Hne).
      apply String.eqb_neq in Hne. rewrite Hne. reflexivity.
    + apply truthy_Some_false in Ep. subst p. reflexivity.
Qed.




End DatabaseHandlerFacts.

(** ** Rounding and clamping *)







(** ** Decision engine *)

Section AIDecisionEngineFacts.

Import AIDecisionEngine.








(** [evaluate_target] never raises; it appends the evaluation it returns
    to the decision history. *)
Lemma evaluate_target_run self info now :
  let evaluation :=
    mkEvaluation (ip_address info) (round3 (overall_risk_of info))
      (round3 (_assess_security_risk info))
      (round3 (_assess_detection_risk info))
      (round3 (_predict_success (_extract_features info)))
      (round3 (_assess_strategic_value info))
      (_make_recommendation self (overall_risk_of info)
         (_assess_strategic_value info)
         (_predict_success (_extract_features info)))
      now in
  evaluate_target info now self
  = (Ok evaluation,
     mkState (db_handler self) (learning_data self)
       (decision_history self ++ [evaluation])
       (strategy_parameters self) (risk_tolerance self)).
Proof. reflexivity. Qed.



(** C3.  With the expected value [value * success_prob - risk], the
    recommendation is REPLICATE exactly when the expected value exceeds 0.3
    and the risk is below the engine's risk tolerance; failing that, it is
    MONITOR exactly when the expected value is positive and the risk is
    below 0.8; failing both, it is AVOID. *)
Theorem C3_make_recommendation self (risk value success_prob : Q) :
  let expected_value := (value * success_prob - risk)%Q in
  let replicate := (0.3 < expected_value ∧ risk < risk_tolerance self)%Q in
  let monitor := (0 < expected_value ∧ risk < 0.8)%Q in
  (_make_recommendation self risk value success_prob = "REPLICATE"
   ↔ replicate)
  ∧ (_make_recommendation self risk value success_prob = "MONITOR"
     ↔ ¬ replicate ∧ monitor)
  ∧ (_make_recommendation self risk value success_prob = "AVOID"
     ↔ ¬ replicate ∧ ¬ monitor).
Proof.
  cbv zeta. unfold _make_recommendation. cbv zeta.
  set (ev := (value * success_prob - risk)%Q).
  rewrite <- !Qlt_bool_iff.
  destruct (Qlt_bool 0.3 ev), (Qlt_bool risk (risk_tolerance self)),
           (Qlt_bool 0 ev), (Qlt_bool risk 0.8); simpl;
    repeat split; try discriminate; try reflexivity;
    intuition discriminate.
Qed.

(** The recommendation [evaluate_target] stores is made from the scores as
    computed; the scores it stores next to it are rounded afterwards. *)
Lemma evaluate_target_recommendation self info now evaluation self' :
  evaluate_target info now self = (Ok evaluation, self') →
  ev_recommendation evaluation
  = _make_recommendation self (overall_risk_of info)
      (_assess_strategic_value info)
      (_predict_success (_extract_features info)).
Proof.
  rewrite evaluate_target_run. intros [= <- _]. reflexivity.
Qed.

Lemma initialize_connected self st :
  DatabaseHandler.connection (db_handler self) = Some st →
  ∃ self',
    initialize self = (Ok tt, self')
    ∧ strategy_parameters self' = Some default_strategy_parameters.
Proof.
  intros Hc.
  unfold initialize, on_db, py_zoom, py_bind,
    DatabaseHandler.load_learning_data, DatabaseHandler.the_connection,
    py_bind, py_get.
  rewrite Hc. simpl. eexists. split; reflexivity.
Qed.

Lemma select_targets_run random_sample self sp available explore_draw
    randint_draw :
  strategy_parameters self = Some sp →
  select_targets random_sample available explore_draw randint_draw self
  = (Ok (if Qlt_bool explore_draw (exploration_rate sp)
         then random_sample available
                (Nat.min randint_draw (length available))
         else take (Nat.min (replication_rate_limit sp) (length available))
                available),
     self).
Proof.
  intros Hsp.
  unfold select_targets.
  assert (Hget : the_strategy_parameters self = (Ok sp, self)).
  { unfold the_strategy_parameters, py_bind, py_get. rewrite Hsp. reflexivity. }
  rewrite (py_bind_Ok _ _ _ _ _ Hget), (py_bind_Ok _ _ _ _ _ Hget).
  destruct (Qlt_bool _ _); reflexivity.
Qed.

(** C7.  On an initialised engine, and with [random.sample] returning as
    many elements as it is asked for, [select_targets] returns a list no
    longer than the list of available targets; when the exploration draw is
    not below the exploration rate, it returns the first
    [min(rate_limit, N)] targets in input order.  The rate limit that
    [initialize] sets is 5. *)
Theorem C7_select_targets random_sample self sp available explore_draw
    randint_draw :
  (∀ population k, (k ≤ length population)%nat →
                   length (random_sample population k) = k) →
  strategy_parameters self = Some sp →
  ∃ selected,
    select_targets random_sample available explore_draw randint_draw self
    = (Ok selected, self)
    ∧ (length selected ≤ length available)%nat
    ∧ (¬ (explore_draw < exploration_rate sp)%Q →
       selected
       = take (Nat.min (replication_rate_limit sp) (length available))
           available)
    ∧ replication_rate_limit default_strategy_parameters = 5%nat.
Proof.
  intros Hsample Hsp. eexists.
  split; [apply (select_targets_run _ _ _ _ _ _ Hsp)|].
  split; [|split; [|reflexivity]].
  - destruct (Qlt_bool _ _).
    + rewrite Hsample; lia.
    + rewrite length_take. lia.
  - intros Hge. destruct (Qlt_bool _ _) eqn:E; [|reflexivity].
    apply Qlt_bool_iff in E. contradiction.
Qed.

(** The test [test_target_selection], with draws that exploit. *)
Lemma C7_select_targets_witness :
  let random_sample := λ (population : list string) (k : nat), take k population in
  let self := (initialize (__init__ test_db_handler)).2 in
  let available := ["192.168.1.1"; "192.168.1.2"; "192.168.1.3"] in
  ∃ selected,
    select_targets random_sample available 0.5 2 self = (Ok selected, self)
    ∧ (length selected ≤ length available)%nat
    ∧ (¬ (0.5 < exploration_rate default_strategy_parameters)%Q →
       selected
       = take (Nat.min (replication_rate_limit default_strategy_parameters)
                 (length available))
           available)
    ∧ replication_rate_limit default_strategy_parameters = 5%nat.
Proof.
  intros random_sample self available.
  apply (C7_select_targets random_sample self default_strategy_parameters
           available 0.5 2).
  - intros population k Hk. unfold random_sample. rewrite length_take. lia.
  - vm_compute. reflexivity.
Defined.

End AIDecisionEngineFacts.

(** ** Replication-state manager *)

Section QuantumReplicatorFacts.

Import QuantumReplicator.

Variable sha256_hexdigest : string → string.

Lemma update_clone_status_connected db st cid status now :
  DatabaseHandler.connection db = Some st →
  DatabaseHandler.update_clone_status cid status now db
  = (Ok tt,
     DatabaseHandler.mkState (DatabaseHandler.db_path db)
       (Some (mkStore
                (alter (λ row, mkCloneRow (row_parent_id row)
                                 (row_target_ip row) (row_generation row)
                                 (row_created_at row) now status
                                 (row_quantum_signature row))
                       cid (clones st))
                (target_evaluations st) (learning_data_table st)))).
Proof.
  intros Hc. unfold DatabaseHandler.update_clone_status.
  erewrite py_bind_Ok; [reflexivity|].
  unfold DatabaseHandler.the_connection, py_bind, py_get. rewrite Hc.
  reflexivity.
Qed.

Lemma delete_if_present {V} (m : gmap string V) (k : string) :
  (if decide (is_Some (m !! k)) then delete k m else m) !! k = None.
Proof.
  case_decide as H; [apply lookup_delete_eq|].
  destruct (m !! k) eqn:E; [|reflexivity]. exfalso. apply H. eauto.
Qed.

(** C4.  On a handler that is connected and holds a record of the clone,
    [terminate_clone] reports success; afterwards the clone id is in neither
    the entanglement map nor the quantum-state map, and its persisted
    status is [terminated].  (This holds whether or not the clone was
    entangled; the claim asks for it when it was.) *)
Theorem C4_terminate_clone self st row cid now :
  DatabaseHandler.connection (db_handler self) = Some st →
  clones st !! cid = Some row →
  ∃ self',
    terminate_clone cid now self = (Ok true, self')
    ∧ entanglement_pairs self' !! cid = None
    ∧ quantum_state self' !! cid = None
    ∧ DatabaseHandler.stored_status (db_handler self') cid = Some "terminated".
Proof.
  intros Hc Hrow.
  set (self1 :=
         set_quantum_state
           (if decide (is_Some (quantum_state self !! cid))
            then delete cid (quantum_state self) else quantum_state self)
           (set_entanglement_pairs
              (if decide (is_Some (entanglement_pairs self !! cid))
               then delete cid (entanglement_pairs self)
               else entanglement_pairs self)
              self)).
  assert (Hdel : ∀ s : Py state bool, (py_modify (λ self : state,
                         if decide (is_Some (entanglement_pairs self !! cid))
                         then set_entanglement_pairs
                                (delete cid (entanglement_pairs self)) self
                         else self) ;;;
                       py_modify (λ self : state,
                         if decide (is_Some (quantum_state self !! cid))
                         then set_quantum_state
                                (delete cid (quantum_state self)) self
                         else self) ;;; s) self
                      = s self1).
  { intros s. unfold py_bind, py_modify, self1.
    destruct self as [db qs ep]; simpl.
    destruct (decide (is_Some (ep !! cid))); simpl;
      destruct (decide (is_Some (qs !! cid))); reflexivity. }
  eexists. split.
  - unfold terminate_clone. apply py_try_Ok. rewrite Hdel.
    erewrite py_bind_Ok; [reflexivity|].
    apply py_zoom_run, update_clone_status_connected. exact Hc.
  - simpl. split; [apply delete_if_present|].
    split; [apply delete_if_present|].
    unfold DatabaseHandler.stored_status. simpl.
    rewrite lookup_alter_eq, Hrow. reflexivity.
Qed.

Lemma check_clone_status_not_entangled self cid now :
  entanglement_pairs self !! cid = None →
  check_clone_status cid now self = (Ok (Unhealthy "No entanglement found"), self).
Proof.
  intros H. unfold check_clone_status, py_bind, py_get. rewrite H. reflexivity.
Qed.

(** C5 (as amended).  For a clone id that is not in the entanglement map,
    [check_clone_status] reports unhealthy with the reason
    [No entanglement found]; for a clone id in the entanglement map it
    reports healthy, and with a captured quantum state it reports that
    state's coherence. *)
Theorem C5_check_clone_status self cid now :
  (entanglement_pairs self !! cid = None →
   check_clone_status cid now self
   = (Ok (Unhealthy "No entanglement found"), self))
  ∧ (is_Some (entanglement_pairs self !! cid) →
     ∃ status,
       check_clone_status cid now self = (Ok status, self)
       ∧ healthy status = true
       ∧ ∀ qs, quantum_state self !! cid = Some qs →
               status = Healthy cid (coherence qs) now).
Proof.
  split; [apply check_clone_status_not_entangled|].
  intros [entry H]. unfold check_clone_status, py_bind, py_get. rewrite H.
  eexists. split; [reflexivity|]. split; [reflexivity|].
  intros qs ->. reflexivity.
Qed.

(** The test [test_clone_status_check], and a clone that was never
    entangled. *)
Lemma C5_check_clone_status_witness :
  let self :=
    (_capture_quantum_state "CLONE-001" "t0"
       (set_entanglement_pairs
          {[ "CLONE-001" := mkEntanglementPair "PARENT-001" "test-key" None ]}
          (__init__ test_db_handler))).2 in
  (check_clone_status "CLONE-002" "t1" self
   = (Ok (Unhealthy "No entanglement found"), self))
  ∧ ∃ status,
      check_clone_status "CLONE-001" "t1" self = (Ok status, self)
      ∧ healthy status = true
      ∧ ∀ qs, quantum_state self !! "CLONE-001" = Some qs →
              status = Healthy "CLONE-001" (coherence qs) "t1".
Proof.
  intros self.
  destruct (C5_check_clone_status self "CLONE-002" "t1") as [H1 _].
  destruct (C5_check_clone_status self "CLONE-001" "t1") as [_ H2].
  split.
  - apply H1. vm_compute. reflexivity.
  - apply H2. vm_compute. eexists. reflexivity.
Defined.

(** C5 as stated names the reason in lower case; the reason the code
    returns starts with a capital letter. *)
Lemma C5_reason_literal_counterexample :
  ∃ reason,
    (check_clone_status "CLONE-001" "t0" (__init__ test_db_handler)).1
    = Ok (Unhealthy reason)
    ∧ reason ≠ "no entanglement found".
Proof.
  eexists. split; [vm_compute; reflexivity | discriminate].
Qed.

(** C10.  For a clone id that is not in the entanglement map, [repair_clone]
    reports success, leaves the entanglement map as it was, and stores a
    freshly captured quantum state under the id; a status check that
    follows still reports unhealthy for want of an entanglement. *)
Theorem C10_repair_clone_not_entangled self cid now urandom_hex now' :
  entanglement_pairs self !! cid = None →
  ∃ self',
    repair_clone sha256_hexdigest cid now urandom_hex self = (Ok true, self')
    ∧ entanglement_pairs self' = entanglement_pairs self
    ∧ quantum_state self' !! cid = Some (mkQuantumState 0.99 0.95 true now)
    ∧ check_clone_status cid now' self'
      = (Ok (Unhealthy "No entanglement found"), self').
Proof.
  intros H. unfold repair_clone.
  eexists. split.
  - apply py_try_Ok.
    erewrite py_bind_Ok; [|reflexivity]. rewrite H.
    erewrite py_bind_Ok; [|reflexivity].
    erewrite py_bind_Ok; reflexivity.
  - simpl. split; [reflexivity|]. split; [apply lookup_insert_eq|].
    apply check_clone_status_not_entangled. exact H.
Qed.

End QuantumReplicatorFacts.

Lemma C10_repair_clone_not_entangled_witness :
  let self := QuantumReplicator.__init__ test_db_handler in
  ∃ self',
    QuantumReplicator.repair_clone (λ s, s) "CLONE-001" "t0" "00" self
    = (Ok true, self')
    ∧ QuantumReplicator.entanglement_pairs self'
      = QuantumReplicator.entanglement_pairs self
    ∧ QuantumReplicator.quantum_state self' !! "CLONE-001"
      = Some (mkQuantumState 0.99 0.95 true "t0")
    ∧ QuantumReplicator.check_clone_status "CLONE-001" "t1" self'
      = (Ok (Unhealthy "No entanglement found"), self').
Proof.
  intros self.
  apply (C10_repair_clone_not_entangled (λ s, s) self "CLONE-001" "t0" "00" "t1").
  vm_compute. reflexivity.
Defined.

(** The test [test_clone_termination]. *)
Lemma C4_terminate_clone_witness :
  let db := (DatabaseHandler.register_clone "CLONE-001" None None "t0"
               test_db_handler).2 in
  let self :=
    (QuantumReplicator._capture_quantum_state "CLONE-001" "t0"
       (QuantumReplicator.set_entanglement_pairs
          {[ "CLONE-001" := mkEntanglementPair "PARENT-001" "test-key" None ]}
          (QuantumReplicator.__init__ db))).2 in
  ∃ self',
    QuantumReplicator.terminate_clone "CLONE-001" "t1" self = (Ok true, self')
    ∧ QuantumReplicator.entanglement_pairs self' !! "CLONE-001" = None
    ∧ QuantumReplicator.quantum_state self' !! "CLONE-001" = None
    ∧ DatabaseHandler.stored_status (QuantumReplicator.db_handler self')
        "CLONE-001" = Some "terminated".
Proof.
  intros db self.
  eapply (C4_terminate_clone self); vm_compute; reflexivity.
Defined.

(** ** Reconnaissance simulator *)

Section StealthModuleFacts.

Import StealthModule.

Variable ip_network : string → option Network.
Variable random_shuffle : list string → list string.
Variable alive_draws : nat → Q.

Lemma scan_loop_app hosts i targets :
  scan_loop alive_draws hosts i targets
  = (targets ++ scan_loop alive_draws hosts i [])%list.
Proof.
  revert i targets. induction hosts as [|h rest IH]; intros i targets; simpl.
  - rewrite app_nil_r. reflexivity.
  - destruct (_is_host_alive _).
    + rewrite IH, (IH _ [h]), <- app_assoc. reflexivity.
    + apply IH.
Qed.

(** The addresses found are among the addresses tested, in their order. *)
Lemma scan_loop_sublist hosts i :
  scan_loop alive_draws hosts i [] `sublist_of` hosts.
Proof.
  revert i. induction hosts as [|h rest IH]; intros i; simpl.
  - constructor.
  - rewrite scan_loop_app. destruct (_is_host_alive _); simpl.
    + apply sublist_skip, IH.
    + apply sublist_cons, IH.
Qed.

(** The range that a call scans: the default one for an absent or empty
    argument. *)
Lemma scan_targets_run network_range self :
  let scanned :=
    if negb (truthy network_range) then "192.168.1.0/24"
    else default "" network_range in
  scan_targets ip_network random_shuffle alive_draws network_range self
  = (Ok (match ip_network scanned with
         | Some network =>
             scan_loop alive_draws
               (take 50 (random_shuffle (network_hosts network))) 0 []
         | None => []
         end),
     self).
Proof.
  cbv zeta. unfold scan_targets, py_try, _detect_local_network.
  destruct (ip_network _); reflexivity.
Qed.

(** What a scan of a range yields, whether the range was given or is the
    default one. *)
Lemma scan_of_range_spec scanned :
  (∀ hosts, random_shuffle hosts ≡ₚ hosts) →
  let targets :=
    match ip_network scanned with
    | Some network =>
        scan_loop alive_draws
          (take 50 (random_shuffle (network_hosts network))) 0 []
    | None => []
    end in
  (length targets ≤ 50)%nat
  ∧ (∀ network, ip_network scanned = Some network →
       targets `sublist_of` take 50 (random_shuffle (network_hosts network))
       ∧ ∀ target_ip, target_ip ∈ targets →
                      target_ip ∈ network_hosts network)
  ∧ (ip_network scanned = None → targets = []).
Proof.
  intros Hshuffle. cbv zeta.
  destruct (ip_network scanned) as [network|].
  - pose proof (scan_loop_sublist
                  (take 50 (random_shuffle (network_hosts network))) 0) as Hsub.
    split; [|split].
    + apply sublist_length in Hsub. rewrite length_take in Hsub. lia.
    + intros ? [= <-]. split; [exact Hsub|].
      intros target_ip Hin. rewrite <- (Hshuffle (network_hosts network)).
      eapply elem_of_sublist; [|apply sublist_take].
      eapply elem_of_sublist; [exact Hin | exact Hsub].
    + discriminate.
  - split; [simpl; lia|]. split; [discriminate | reflexivity].
Qed.

(** C8 (as amended).  For a non-empty range string, [scan_targets] returns
    at most 50 addresses, each a host address of the range, in the order in
    which they were tested; when the range cannot be parsed, it returns the
    empty list.  The empty range string is treated as an absent range: the
    scan then goes over the default subnet [192.168.1.0/24], and returns at
    most 50 host addresses of that subnet in the order tested, or the empty
    list if the default subnet cannot be parsed. *)
Theorem C8_scan_targets network_range self :
  (∀ hosts, random_shuffle hosts ≡ₚ hosts) →
  network_range ≠ "" →
  (∃ targets,
     scan_targets ip_network random_shuffle alive_draws (Some network_range)
       self = (Ok targets, self)
     ∧ (length targets ≤ 50)%nat
     ∧ (∀ network, ip_network network_range = Some network →
          targets
            `sublist_of` take 50 (random_shuffle (network_hosts network))
          ∧ ∀ target_ip, target_ip ∈ targets →
                         target_ip ∈ network_hosts network)
     ∧ (ip_network network_range = None → targets = []))
  ∧ (∃ targets,
       scan_targets ip_network random_shuffle alive_draws (Some "") self
       = (Ok targets, self)
       ∧ scan_targets ip_network random_shuffle alive_draws None self
         = (Ok targets, self)
       ∧ (length targets ≤ 50)%nat
       ∧ (∀ network, ip_network "192.168.1.0/24" = Some network →
            targets
              `sublist_of` take 50 (random_shuffle (network_hosts network))
            ∧ ∀ target_ip, target_ip ∈ targets →
                           target_ip ∈ network_hosts network)
       ∧ (ip_network "192.168.1.0/24" = None → targets = [])).
Proof.
  intros Hshuffle Hne. split.
  - eexists. split; [apply scan_targets_run|].
    apply truthy_Some in Hne. rewrite Hne. simpl.
    apply (scan_of_range_spec network_range Hshuffle).
  - exists (match ip_network "192.168.1.0/24" with
            | Some network =>
                scan_loop alive_draws
                  (take 50 (random_shuffle (network_hosts network))) 0 []
            | None => []
            end).
    split; [exact (scan_targets_run (Some "") self)|].
    split; [exact (scan_targets_run None self)|].
    apply (scan_of_range_spec "192.168.1.0/24" Hshuffle).
Qed.

End StealthModuleFacts.

Lemma C8_scan_targets_witness :
  let alive_draws : nat → Q := λ i, if Nat.even i then 0.9%Q else 0.5%Q in
  let self := StealthModule.__init__ in
  (∃ targets,
     StealthModule.scan_targets sample_ip_network (λ hosts, hosts) alive_draws
       (Some "192.168.1.0/24") self = (Ok targets, self)
     ∧ (length targets ≤ 50)%nat
     ∧ (∀ network, sample_ip_network "192.168.1.0/24" = Some network →
          targets `sublist_of` take 50 (network_hosts network)
          ∧ ∀ target_ip, target_ip ∈ targets →
                         target_ip ∈ network_hosts network)
     ∧ (sample_ip_network "192.168.1.0/24" = None → targets = []))
  ∧ (∃ targets,
       StealthModule.scan_targets sample_ip_network (λ hosts, hosts)
         alive_draws (Some "") self = (Ok targets, self)
       ∧ StealthModule.scan_targets sample_ip_network (λ hosts, hosts)
           alive_draws None self = (Ok targets, self)
       ∧ (length targets ≤ 50)%nat
       ∧ (∀ network, sample_ip_network "192.168.1.0/24" = Some network →
            targets `sublist_of` take 50 (network_hosts network)
            ∧ ∀ target_ip, target_ip ∈ targets →
                           target_ip ∈ network_hosts network)
       ∧ (sample_ip_network "192.168.1.0/24" = None → targets = [])).
Proof.
  intros alive_draws self.
  apply (C8_scan_targets sample_ip_network (λ hosts, hosts) alive_draws
           "192.168.1.0/24" self).
  - reflexivity.
  - discriminate.
Defined.

(** C8 as stated fails for the empty range string: no network can be
    parsed from it, and the scan goes over the default subnet instead and
    returns the hosts found there. *)
Lemma C8_empty_range_counterexample :
  let targets :=
    (StealthModule.scan_targets sample_ip_network (λ hosts, hosts)
       (λ _, 0.9%Q) (Some "") StealthModule.__init__).1 in
  sample_ip_network "" = None
  ∧ targets = Ok (take 50 (network_hosts sample_network))
  ∧ targets ≠ Ok [].
Proof.
  vm_compute. repeat split. discriminate.
Qed.

(** ** Orchestrator *)

Section OuroborosZeroFacts.

Import OuroborosZero.

Variables sha256_hexdigest sha512_hexdigest md5_hexdigest : string → string.
Variable b64encode : string → string.
Variable read_file : string → option string.
Variable ip_network : string → option Network.

(** Whatever its outcome, an evaluation leaves the connection registry, the
    clone registry, the replication state and the [clones] table alone: it
    writes the intelligence cache, the decision history and the
    [target_evaluations] table. *)
Lemma evaluate_target_preserves target_ip d self r self1 :
  evaluate_target ip_network target_ip d self = (r, self1) →
  active_connections self1 = active_connections self
  ∧ clone_registry self1 = clone_registry self
  ∧ quantum_replicator self1 = quantum_replicator self
  ∧ clones_of self1 = clones_of self.
Proof.
  unfold evaluate_target, py_bind, on_stealth, on_engine, on_db, py_zoom.
  unfold StealthModule.gather_intelligence, StealthModule._map_topology,
    py_bind.
  destruct (ip_network _) as [network|]; simpl.
  - unfold DatabaseHandler.store_target_evaluation,
      DatabaseHandler.the_connection, py_bind, py_get.
    destruct (DatabaseHandler.connection (db_handler self)) as [st|] eqn:Hc;
      simpl; intros [= <- <-]; unfold clones_of; simpl; rewrite ?Hc; auto.
  - intros [= <- <-]. unfold clones_of. simpl. auto.
Qed.

(** C6.  When the evaluation of a target yields an overall risk score above
    0.7, [replicate_to_target] reports failure, and neither the connection
    registry, nor the clone registry, nor the replication state, nor the
    [clones] table has changed. *)
Theorem C6_replicate_to_target_risk_too_high target_ip d self evaluation
    self1 :
  evaluate_target ip_network target_ip d self = (Ok evaluation, self1) →
  (0.7 < ev_risk_score evaluation)%Q →
  ∃ self',
    replicate_to_target sha256_hexdigest sha512_hexdigest md5_hexdigest
      b64encode read_file ip_network target_ip d self = (Ok false, self')
    ∧ active_connections self' = active_connections self
    ∧ clone_registry self' = clone_registry self
    ∧ quantum_replicator self' = quantum_replicator self
    ∧ clones_of self' = clones_of self.
Proof.
  intros Hev Hrisk. exists self1. split.
  - unfold replicate_to_target. apply py_try_Ok.
    rewrite (py_bind_Ok _ _ _ _ _ Hev).
    apply Qlt_bool_iff in Hrisk. rewrite Hrisk. reflexivity.
  - apply (evaluate_target_preserves _ _ _ _ _ Hev).
Qed.

End OuroborosZeroFacts.

(** An initialised orchestrator meets a hardened target: the evaluation
    yields a risk score of 0.844. *)
Lemma C6_replicate_to_target_risk_too_high_witness :
  let self :=
    (OuroborosZero.initialize fresh_sqlite_open "t0"
       (OuroborosZero.__init__ "config/config.yaml"
          "OUROBOROS-20240101000000")).2 in
  let d := mkDraws "t1" hardened_draw 0 "00" in
  ∃ self',
    OuroborosZero.replicate_to_target (λ s, s) (λ s, s) (λ s, s) (λ s, s)
      (λ _, None) sample_ip_network "192.168.1.100" d self = (Ok false, self')
    ∧ OuroborosZero.active_connections self'
      = OuroborosZero.active_connections self
    ∧ OuroborosZero.clone_registry self' = OuroborosZero.clone_registry self
    ∧ OuroborosZero.quantum_replicator self'
      = OuroborosZero.quantum_replicator self
    ∧ OuroborosZero.clones_of self' = OuroborosZero.clones_of self.
Proof.
  intros self d.
  eapply (C6_replicate_to_target_risk_too_high (λ s, s) (λ s, s) (λ s, s)
            (λ s, s) (λ _, None) sample_ip_network "192.168.1.100" d self).
  - vm_compute. reflexivity.
  - vm_compute. reflexivity.
Defined.

(** ** Package surface *)

(** C9.  The export list names [AutonomousReplicator], which no module of
    the package defines and [__init__.py] never binds, and leaves out the
    orchestrator class [OuroborosZero] that it imports; the other four
    exported names are classes of the package.  A star-import of the
    package therefore raises. *)
Theorem C9_all_names_unbound_export :
  ("AutonomousReplicator" ∈ PackageSurface.__all__)
  ∧ ("AutonomousReplicator" ∉ PackageSurface.namespace)
  ∧ ("AutonomousReplicator" ∉ PackageSurface.defined_classes)
  ∧ ("OuroborosZero" ∈ PackageSurface.defined_classes)
  ∧ ("OuroborosZero" ∉ PackageSurface.__all__)
  ∧ (∀ name, name ∈ PackageSurface.__all__ →
             name ≠ "AutonomousReplicator" →
             name ∈ PackageSurface.defined_classes)
  ∧ PackageSurface.import_star = Raise AttributeError.
Proof.
  unfold PackageSurface.__all__, PackageSurface.namespace,
    PackageSurface.defined_classes.
  repeat split.
  - set_solver.
  - intros H. repeat (apply elem_of_cons in H as [H|H]; [discriminate|]).
    inversion H.
  - intros H. repeat (apply elem_of_cons in H as [H|H]; [discriminate|]).
    inversion H.
  - set_solver.
  - intros H. repeat (apply elem_of_cons in H as [H|H]; [discriminate|]).
    inversion H.
  - intros name H Hne.
    repeat (apply elem_of_cons in H as [H|H]; [subst; set_solver|]).
    inversion H.
Qed.

(** * Further properties *)

(** ** Persistence layer: registration and status updates *)

Section DatabaseHandlerMore.

Import DatabaseHandler.

Lemma the_connection_unconnected db :
  connection db = None → the_connection db = (Raise AttributeError, db).
Proof.
  intros Hc. unfold the_connection, py_bind, py_get. rewrite Hc. reflexivity.
Qed.

Lemma the_connection_connected db st :
  connection db = Some st → the_connection db = (Ok st, db).
Proof.
  intros Hc. unfold the_connection, py_bind, py_get. rewrite Hc. reflexivity.
Qed.

Lemma register_clone_unconnected db cid parent tip now :
  connection db = None → register_clone cid parent tip now db = (Ok false, db).
Proof.
  intros Hc. unfold register_clone.
  destruct (truthy parent) eqn:Et.
  - destruct parent as [p|]; [|discriminate].
    erewrite py_try_Raise; [reflexivity|].
    apply py_bind_Raise. unfold get_clone_generation. rewrite Et. simpl.
    apply py_bind_Raise, the_connection_unconnected, Hc.
  - erewrite py_try_Raise; [reflexivity|].
    erewrite py_bind_Ok; [|reflexivity]. cbv zeta.
    apply py_bind_Raise. unfold insert_clone.
    apply py_bind_Raise, the_connection_unconnected, Hc.
Qed.

Lemma get_clone_generation_total db st parent :
  connection db = Some st →
  ∃ g, (if truthy parent then get_clone_generation parent
        else py_ret 0%Z) db = (Ok g, db).
Proof.
  intros Hc. destruct (truthy parent) eqn:Et; [|eexists; reflexivity].
  destruct parent as [p|]; [|discriminate].
  eexists. apply (get_clone_generation_connected _ _ _ Hc).
  apply truthy_Some, Et.
Qed.

Lemma register_clone_duplicate db st cid row parent tip now :
  connection db = Some st → clones st !! cid = Some row →
  register_clone cid parent tip now db = (Ok false, db).
Proof.
  intros Hc Hrow. unfold register_clone.
  destruct (get_clone_generation_total db st parent Hc) as [g Hg].
  erewrite py_try_Raise; [reflexivity|].
  rewrite (py_bind_Ok _ _ _ _ _ Hg). cbv zeta.
  apply py_bind_Raise. unfold insert_clone.
  rewrite (py_bind_Ok _ _ _ _ _ (the_connection_connected _ _ Hc)).
  rewrite Hrow. reflexivity.
Qed.


(** X2.  The persistence layer keeps every stored generation at least 1:
    the property is kept by [register_clone], whatever its arguments and
    outcome, and by [update_clone_status]; [connect] keeps it when the rows
    of the database file it opens have it, as those of a new database
    do. *)
Theorem X2_generations_positive sqlite_open db cid parent tip status now :
  generations_positive db →
  generations_positive (register_clone cid parent tip now db).2
  ∧ generations_positive (update_clone_status cid status now db).2
  ∧ ((∀ st, opened_store (sqlite_open (db_path db)) = Some st →
            generations_positive (mkState (db_path db) (Some st))) →
     generations_positive (connect sqlite_open db).2)
  ∧ generations_positive (mkState (db_path db) (Some empty_store)).
Proof.
  intros Hinv. split; [|split; [|split]].
  - destruct (connection db) as [st|] eqn:Hc.
    + destruct (clones st !! cid) as [old|] eqn:Hold.
      * rewrite (register_clone_duplicate _ _ _ _ _ _ _ Hc Hold). exact Hinv.
      * rewrite (register_clone_fresh _ _ _ _ _ _ Hc Hold).
        intros st' c row [= <-]. simpl.
        destruct (decide (cid = c)) as [->|Hne].
        -- rewrite lookup_insert_eq. intros [= <-]. simpl.
           destruct parent as [p|]; [|lia].
           destruct (String.eqb p ""); [lia|].
           destruct (clones st !! p) as [prow|] eqn:Hp; [|lia].
           specialize (Hinv _ _ _ Hc Hp). lia.
        -- rewrite lookup_insert_ne by exact Hne. apply (Hinv _ _ _ Hc).
    + rewrite (register_clone_unconnected _ _ _ _ _ Hc). exact Hinv.
  - destruct (connection db) as [st|] eqn:Hc.
    + rewrite (update_clone_status_connected _ _ _ _ _ Hc).
      intros st' c row [= <-]. simpl. rewrite lookup_alter.
      case_decide as Heq.
      * destruct (clones st !! cid) as [old|] eqn:Hold; [|discriminate].
        intros [= <-]. simpl. apply (Hinv _ _ _ Hc Hold).
      * apply (Hinv _ _ _ Hc).
    + unfold update_clone_status.
      rewrite (py_bind_Raise _ _ _ _ _ (the_connection_unconnected _ Hc)).
      exact Hinv.
  - intros Hfile. unfold connect, py_try, py_raise.
    destruct (sqlite_open (db_path db)) as [st|e|st e]; simpl.
    + apply Hfile. reflexivity.
    + exact Hinv.
    + apply Hfile. reflexivity.
  - intros st c row [= <-]. simpl. rewrite lookup_empty. discriminate.
Qed.

Lemma X2_generations_positive_witness :
  let db := test_db_handler in
  generations_positive (register_clone "CLONE-001" None None "t1" db).2
  ∧ generations_positive (update_clone_status "CLONE-001" "lost" "t1" db).2
  ∧ ((∀ st, opened_store (fresh_sqlite_open (db_path db)) = Some st →
            generations_positive (mkState (db_path db) (Some st))) →
     generations_positive (connect fresh_sqlite_open db).2)
  ∧ generations_positive (mkState (db_path db) (Some empty_store)).
Proof.
  intros db.
  apply (X2_generations_positive fresh_sqlite_open db "CLONE-001" None None
           "lost" "t1").
  intros st cid row [= <-]. simpl. rewrite lookup_empty. discriminate.
Defined.

(** X3.  Insert and look up: after a successful registration under a
    non-empty clone id, [get_clone_generation] of that id returns one more
    than the generation looked up for the parent argument just before (0
    for an absent, empty or unknown parent). *)
Theorem X3_register_then_get_generation db db' cid parent tip now :
  cid ≠ "" →
  register_clone cid parent tip now db = (Ok true, db') →
  ∃ g,
    get_clone_generation parent db = (Ok g, db)
    ∧ get_clone_generation (Some cid) db' = (Ok (g + 1)%Z, db').
Proof.
  intros Hcid Hreg.
  destruct (connection db) as [st|] eqn:Hc;
    [|rewrite (register_clone_unconnected _ _ _ _ _ Hc) in Hreg; discriminate].
  destruct (clones st !! cid) as [old|] eqn:Hold;
    [rewrite (register_clone_duplicate _ _ _ _ _ _ _ Hc Hold) in Hreg;
     discriminate|].
  rewrite (register_clone_fresh _ _ _ _ _ _ Hc Hold) in Hreg.
  injection Hreg as <-.
  exists (match parent with
          | Some p =>
              if String.eqb p "" then 0%Z
              else match clones st !! p with
                   | Some row => row_generation row
                   | None => 0%Z
                   end
          | None => 0%Z
          end).
  split.
  - destruct parent as [p|]; [|reflexivity].
    destruct (String.eqb p "") eqn:Ep.
    + apply String.eqb_eq in Ep. subst p. reflexivity.
    + apply String.eqb_neq in Ep.
      apply (get_clone_generation_connected _ _ _ Hc Ep).
  - erewrite get_clone_generation_connected; [|reflexivity|exact Hcid].
    simpl. rewrite lookup_insert_eq. reflexivity.
Qed.

Lemma X3_register_then_get_generation_witness :
  let db := (register_clone "PARENT-001" None None "t0" test_db_handler).2 in
  let r := register_clone "CHILD-001" (Some "PARENT-001") None "t1" db in
  ∃ g,
    get_clone_generation (Some "PARENT-001") db = (Ok g, db)
    ∧ get_clone_generation (Some "CHILD-001") r.2 = (Ok (g + 1)%Z, r.2).
Proof.
  intros db r.
  apply (X3_register_then_get_generation db r.2 "CHILD-001"
           (Some "PARENT-001") None "t1").
  - discriminate.
  - vm_compute. reflexivity.
Defined.

(** X4.  [update_clone_status] on a connected handler never raises and
    never adds or removes a row: a row with the given id gets the new status
    and last-contact time and keeps its other columns, every other row is
    untouched, and for an unknown id the table is unchanged. *)
Theorem X4_update_clone_status_frame db st cid status now :
  connection db = Some st →
  ∃ st',
    update_clone_status cid status now db
    = (Ok tt, mkState (db_path db) (Some st'))
    ∧ (∀ row, clones st !! cid = Some row →
              clones st' !! cid
              = Some (mkCloneRow (row_parent_id row) (row_target_ip row)
                        (row_generation row) (row_created_at row) now status
                        (row_quantum_signature row)))
    ∧ (clones st !! cid = None → clones st' = clones st)
    ∧ (∀ other, other ≠ cid → clones st' !! other = clones st !! other)
    ∧ dom (clones st') = dom (clones st)
    ∧ target_evaluations st' = target_evaluations st
    ∧ learning_data_table st' = learning_data_table st.
Proof.
  intros Hc. eexists.
  split; [apply (update_clone_status_connected _ _ _ _ _ Hc)|]. simpl.
  split; [|split; [|split; [|split]]].
  - intros row Hrow. rewrite lookup_alter_eq, Hrow. reflexivity.
  - intros Hnone. apply map_eq. intros k. rewrite lookup_alter.
    case_decide; [subst; rewrite Hnone; reflexivity | reflexivity].
  - intros other Hne. apply lookup_alter_ne. congruence.
  - apply dom_alter_L.
  - split; reflexivity.
Qed.

Lemma X4_update_clone_status_frame_witness :
  ∃ st',
    update_clone_status "CLONE-001" "lost" "t1" test_db_handler
    = (Ok tt, mkState (db_path test_db_handler) (Some st'))
    ∧ (∀ row, clones empty_store !! "CLONE-001" = Some row →
              clones st' !! "CLONE-001"
              = Some (mkCloneRow (row_parent_id row) (row_target_ip row)
                        (row_generation row) (row_created_at row) "t1" "lost"
                        (row_quantum_signature row)))
    ∧ (clones empty_store !! "CLONE-001" = None
       → clones st' = clones empty_store)
    ∧ (∀ other, other ≠ "CLONE-001" →
                clones st' !! other = clones empty_store !! other)
    ∧ dom (clones st') = dom (clones empty_store)
    ∧ target_evaluations st' = target_evaluations empty_store
    ∧ learning_data_table st' = learning_data_table empty_store.
Proof.
  apply (X4_update_clone_status_frame test_db_handler empty_store
           "CLONE-001" "lost" "t1").
  reflexivity.
Defined.

(** ** Persistence layer: statistics *)

Lemma get_clone_statistics_connected db st :
  connection db = Some st →
  get_clone_statistics db
  = (Ok (mkCloneStatistics
           (size (clones st))
           (size (filter is_active (clones st)))
           (match select_max_generation st with
            | Some g => if Z.eqb g 0 then 0%Z else g
            | None => 0%Z
            end)
           (length (remove_dups (ev_target_ip <$> target_evaluations st)))),
     db).
Proof.
  intros Hc. unfold get_clone_statistics.
  rewrite (py_bind_Ok _ _ _ _ _ (the_connection_connected _ _ Hc)).
  reflexivity.
Qed.

Lemma foldr_max_ge (g : Z) (gs : list Z) (x : Z) :
  x ∈ g :: gs → (x ≤ foldr Z.max g gs)%Z.
Proof.
  induction gs as [|h gs IH]; simpl.
  - intros Hx. apply list_elem_of_singleton in Hx. lia.
  - intros Hx. apply elem_of_cons in Hx as [->|Hx].
    + assert (g ≤ foldr Z.max g gs)%Z by (apply IH; left). lia.
    + apply elem_of_cons in Hx as [->|Hx]; [lia|].
      assert (x ≤ foldr Z.max g gs)%Z by (apply IH; right; exact Hx). lia.
Qed.



(** X6.  In the statistics of a connected handler the active-clone count
    does not exceed the clone count, and the reported maximum generation is
    at least the generation of every stored clone. *)
Theorem X6_statistics_bounds db st :
  connection db = Some st →
  ∃ stats,
    get_clone_statistics db = (Ok stats, db)
    ∧ (active_clones stats ≤ total_clones stats)%nat
    ∧ ∀ cid g, stored_generation db cid = Some g →
               (g ≤ max_generation stats)%Z.
Proof.
  intros Hc. eexists.
  split; [apply (get_clone_statistics_connected _ _ Hc)|]. simpl.
  split; [apply map_size_filter|].
  intros cid g. unfold stored_generation. rewrite Hc. simpl.
  destruct (clones st !! cid) as [row|] eqn:Hrow; simpl; [|discriminate].
  intros [= <-].
  assert (Hin : row_generation row
                ∈ (λ entry : string * CloneRow, row_generation entry.2)
                    <$> map_to_list (clones st)).
  { apply list_elem_of_fmap. exists (cid, row). split; [reflexivity|].
    apply elem_of_map_to_list, Hrow. }
  unfold select_max_generation.
  destruct (_ <$> map_to_list (clones st)) as [|g0 gs].
  - inversion Hin.
  - pose proof (foldr_max_ge g0 gs _ Hin) as Hle.
    destruct (Z.eqb_spec (foldr Z.max g0 gs) 0) as [Hz|Hz]; lia.
Qed.

Lemma X6_statistics_bounds_witness :
  let db := (register_clone "CLONE-001" None None "t0" test_db_handler).2 in
  ∃ stats,
    get_clone_statistics db = (Ok stats, db)
    ∧ (active_clones stats ≤ total_clones stats)%nat
    ∧ ∀ cid g, stored_generation db cid = Some g →
               (g ≤ max_generation stats)%Z.
Proof.
  intros db.
  eapply (X6_statistics_bounds db). vm_compute. reflexivity.
Defined.

(** ** Persistence layer: learning history *)

Lemma Sorted_take {A} (R : relation A) (l : list A) (n : nat) :
  Sorted R l → Sorted R (take n l).
Proof.
  intros Hs. revert n. induction Hs as [|x l Hs IH Hhd]; intros n.
  - rewrite take_nil. constructor.
  - destruct n as [|n]; simpl; [constructor|].
    constructor; [apply IH|].
    destruct Hhd as [|y l' Hxy]; [rewrite take_nil; constructor|].
    destruct n; simpl; constructor. exact Hxy.
Qed.

#[local] Instance newer_first_total : Total newer_first.
Proof.
  intros a b. unfold newer_first.
  destruct (String.leb_total (le_timestamp b) (le_timestamp a)); auto.
Qed.

(** X7.  [load_learning_data] on a connected handler returns at most 1000
    entries, all of them rows of the table, newest first; while the table
    holds no more than 1000 rows it returns all of them. *)
Theorem X7_load_learning_data db st :
  connection db = Some st →
  ∃ loaded,
    load_learning_data db = (Ok loaded, db)
    ∧ (length loaded ≤ 1000)%nat
    ∧ Sorted newer_first loaded
    ∧ (∀ entry, entry ∈ loaded → entry ∈ learning_data_table st)
    ∧ ((length (learning_data_table st) ≤ 1000)%nat →
       loaded ≡ₚ learning_data_table st).
Proof.
  intros Hc. eexists. split.
  { unfold load_learning_data.
    rewrite (py_bind_Ok _ _ _ _ _ (the_connection_connected _ _ Hc)).
    reflexivity. }
  split; [rewrite length_take; lia|].
  split; [apply Sorted_take, Sorted_merge_sort, _|].
  split.
  - intros entry Hin.
    rewrite <- (merge_sort_Permutation newer_first (learning_data_table st)).
    eapply elem_of_sublist; [exact Hin | apply sublist_take].
  - intros Hlen. rewrite take_ge.
    + apply merge_sort_Permutation.
    + rewrite (Permutation_length
                 (merge_sort_Permutation newer_first (learning_data_table st))).
      exact Hlen.
Qed.

Lemma X7_load_learning_data_witness :
  let db :=
    (store_learning_data (mkLearningEntry "192.168.1.2" "failure" "t2")
       (store_learning_data (mkLearningEntry "192.168.1.1" "success" "t1")
          test_db_handler).2).2 in
  ∃ loaded,
    load_learning_data db = (Ok loaded, db)
    ∧ (length loaded ≤ 1000)%nat
    ∧ Sorted newer_first loaded
    ∧ (∀ entry, entry ∈ loaded →
                entry ∈ [mkLearningEntry "192.168.1.1" "success" "t1";
                         mkLearningEntry "192.168.1.2" "failure" "t2"])
    ∧ ((length [mkLearningEntry "192.168.1.1" "success" "t1";
                mkLearningEntry "192.168.1.2" "failure" "t2"] ≤ 1000)%nat →
       loaded ≡ₚ [mkLearningEntry "192.168.1.1" "success" "t1";
                  mkLearningEntry "192.168.1.2" "failure" "t2"]).
Proof.
  intros db.
  apply (X7_load_learning_data db
           (mkStore ∅ []
              [mkLearningEntry "192.168.1.1" "success" "t1";
               mkLearningEntry "192.168.1.2" "failure" "t2"])).
  vm_compute. reflexivity.
Defined.

End DatabaseHandlerMore.

(** ** Decision engine: learning and tuning *)

Section AIDecisionEngineMore.

Import AIDecisionEngine.

Lemma update_strategy_run self :
  ∃ tolerance,
    _update_strategy self = (Ok tt, set_risk_tolerance tolerance self)
    ∧ ((0.4 <= risk_tolerance self <= 0.8)%Q →
       (0.4 <= tolerance <= 0.8)%Q)
    ∧ ((length (learning_data self) ≤ 10)%nat →
       tolerance = risk_tolerance self).
Proof.
  unfold _update_strategy, py_modify. cbv zeta.
  assert (Hid : self = set_risk_tolerance (risk_tolerance self) self)
    by (destruct self; reflexivity).
  assert (Hlen : (length (last_n 100 (learning_data self))
                  ≤ length (learning_data self))%nat).
  { unfold last_n. rewrite length_drop. lia. }
  destruct (10 <? _)%nat eqn:E.
  - apply Nat.ltb_lt in E.
    destruct (Qlt_bool 0.7 _).
    + eexists. split; [reflexivity|]. split; [|lia].
      intros [Hlo Hhi]. split.
      * apply Q.min_glb; lra.
      * apply Q.le_min_r.
    + destruct (Qlt_bool _ 0.3).
      * eexists. split; [reflexivity|]. split; [|lia].
        intros [Hlo Hhi]. split.
        -- apply Q.le_max_r.
        -- apply Q.max_lub; lra.
      * exists (risk_tolerance self). rewrite <- Hid. auto.
  - exists (risk_tolerance self). rewrite <- Hid. auto.
Qed.

(** X8.  A learning event, of either outcome and whether or not the store
    accepts it, appends exactly one entry to the in-memory history, keeps a
    risk tolerance that lies within [[0.4, 0.8]] within it, leaves the
    strategy parameters and the decision history alone, and leaves the risk
    tolerance as it was while the history, the new entry included, holds at
    most ten entries. *)
Theorem X8_learning_keeps_risk_tolerance self target_ip outcome now :
  (0.4 <= risk_tolerance self <= 0.8)%Q →
  let self' := (learn target_ip outcome now self).2 in
  (0.4 <= risk_tolerance self' <= 0.8)%Q
  ∧ learning_data self'
    = (learning_data self ++ [mkLearningEntry target_ip outcome now])%list
  ∧ strategy_parameters self' = strategy_parameters self
  ∧ decision_history self' = decision_history self
  ∧ ((length (learning_data self) < 10)%nat →
     risk_tolerance self' = risk_tolerance self).
Proof.
  intros Hrange.
  set (self1 := mkState (db_handler self)
                  (learning_data self ++ [mkLearningEntry target_ip outcome now])
                  (decision_history self) (strategy_parameters self)
                  (risk_tolerance self)).
  destruct (update_strategy_run self1) as (tol & Hrun & Htol & Hsame).
  assert (Hlearn : ∃ r db', learn target_ip outcome now self
                            = (r, set_db_handler db'
                                    (set_risk_tolerance tol self1))).
  { unfold learn. unfold py_bind at 1. unfold py_modify at 1. fold self1.
    rewrite (py_bind_Ok _ _ _ _ _ Hrun). unfold on_db, py_zoom.
    destruct (DatabaseHandler.store_learning_data _ _) as [r db'].
    exists r, db'. reflexivity. }
  destruct Hlearn as (r & db' & ->). simpl.
  split; [apply Htol, Hrange|]. repeat split.
  intros Hlen. apply Hsame. simpl. rewrite length_app. simpl. lia.
Qed.

Lemma X8_learning_keeps_risk_tolerance_witness :
  let self := __init__ test_db_handler in
  let self' := (learn "192.168.1.1" "success" "t1" self).2 in
  (0.4 <= risk_tolerance self' <= 0.8)%Q
  ∧ learning_data self'
    = (learning_data self
       ++ [mkLearningEntry "192.168.1.1" "success" "t1"])%list
  ∧ strategy_parameters self' = strategy_parameters self
  ∧ decision_history self' = decision_history self
  ∧ ((length (learning_data self) < 10)%nat →
     risk_tolerance self' = risk_tolerance self).
Proof.
  intros self.
  apply (X8_learning_keeps_risk_tolerance self "192.168.1.1" "success" "t1").
  unfold Qle. simpl. lia.
Defined.

(** X9.  On an initialised engine [optimize_strategy] never raises and can
    change one thing only, the risk threshold: a threshold of at least 0.5
    is never raised and never taken below 0.5.  The rate limit and the
    exploration rate stay as set, and the whole engine is left as it was
    while the decision history holds at most 50 evaluations. *)
Theorem X9_optimize_strategy self sp :
  strategy_parameters self = Some sp →
  ∃ self' threshold,
    let sp' :=
      mkStrategyParameters (target_selection_weight_security sp)
        (target_selection_weight_spread sp) (replication_rate_limit sp)
        threshold (learning_rate sp) (exploration_rate sp) in
    optimize_strategy self = (Ok tt, self')
    ∧ self' = mkState (db_handler self) (learning_data self)
                (decision_history self) (Some sp') (risk_tolerance self)
    ∧ ((0.5 <= risk_threshold sp)%Q →
       (0.5 <= threshold <= risk_threshold sp)%Q)
    ∧ ((length (decision_history self) ≤ 50)%nat → self' = self).
Proof.
  intros Hsp.
  assert (Hself : self = mkState (db_handler self) (learning_data self)
                           (decision_history self)
                           (Some (mkStrategyParameters
                                    (target_selection_weight_security sp)
                                    (target_selection_weight_spread sp)
                                    (replication_rate_limit sp)
                                    (risk_threshold sp) (learning_rate sp)
                                    (exploration_rate sp)))
                           (risk_tolerance self)).
  { destruct self, sp. simpl in Hsp. subst. reflexivity. }
  unfold optimize_strategy.
  rewrite (py_bind_Ok _ _ self self self) by reflexivity.
  destruct (50 <? _)%nat eqn:E.
  - apply Nat.ltb_lt in E. cbv zeta.
    destruct (Qlt_bool 0.7 _).
    + rewrite Hsp. do 2 eexists. split; [reflexivity|].
      split; [reflexivity|]. split; [|lia].
      intros Hge. split; [apply Q.le_max_r|]. apply Q.max_lub; lra.
    + exists self, (risk_threshold sp). split; [reflexivity|].
      split; [exact Hself|]. split; [lra|reflexivity].
  - exists self, (risk_threshold sp). split; [reflexivity|].
    split; [exact Hself|]. split; [lra|reflexivity].
Qed.

Lemma X9_optimize_strategy_witness :
  let self := (initialize (__init__ test_db_handler)).2 in
  let sp := default_strategy_parameters in
  ∃ self' threshold,
    let sp' :=
      mkStrategyParameters (target_selection_weight_security sp)
        (target_selection_weight_spread sp) (replication_rate_limit sp)
        threshold (learning_rate sp) (exploration_rate sp) in
    optimize_strategy self = (Ok tt, self')
    ∧ self' = mkState (db_handler self) (learning_data self)
                (decision_history self) (Some sp') (risk_tolerance self)
    ∧ ((0.5 <= risk_threshold sp)%Q →
       (0.5 <= threshold <= risk_threshold sp)%Q)
    ∧ ((length (decision_history self) ≤ 50)%nat → self' = self).
Proof.
  intros self sp.
  apply (X9_optimize_strategy self sp).
  vm_compute. reflexivity.
Defined.

(** X10.  Before [initialize] has run the strategy parameters are the
    empty dict, and [select_targets] raises a [KeyError] for every list of
    targets and every draw, leaving the engine as it was. *)
Theorem X10_select_targets_uninitialised random_sample self available
    explore_draw randint_draw :
  strategy_parameters self = None →
  select_targets random_sample available explore_draw randint_draw self
  = (Raise KeyError, self).
Proof.
  intros Hsp. unfold select_targets. apply py_bind_Raise.
  unfold the_strategy_parameters, py_bind, py_get. rewrite Hsp. reflexivity.
Qed.

Lemma X10_select_targets_uninitialised_witness :
  select_targets (λ population k, take k population)
    ["192.168.1.1"; "192.168.1.2"] 0.5 2 (__init__ test_db_handler)
  = (Raise KeyError, __init__ test_db_handler).
Proof.
  apply (X10_select_targets_uninitialised (λ population k, take k population)
           (__init__ test_db_handler)).
  reflexivity.
Defined.

Lemma round_half_even_close (y : Q) :
  (y - 0.5 <= inject_Z (round_half_even y) <= y + 0.5)%Q.
Proof.
  pose proof (Qfloor_le y) as Hf1. pose proof (Qlt_floor y) as Hf2.
  rewrite inject_Z_plus in Hf2. change (inject_Z 1) with 1%Q in Hf2.
  unfold round_half_even.
  destruct (Qlt_bool _ 0.5) eqn:E1.
  - apply Qlt_bool_iff in E1. lra.
  - apply Qlt_bool_false_iff in E1.
    destruct (Qlt_bool 0.5 _) eqn:E2.
    + rewrite inject_Z_plus. change (inject_Z 1) with 1%Q. lra.
    + apply Qlt_bool_false_iff in E2.
      destruct (Z.even _);
        [|rewrite inject_Z_plus; change (inject_Z 1) with 1%Q]; lra.
Qed.

Lemma round3_close (x : Q) : rounded_from (round3 x) x.
Proof.
  unfold rounded_from, round3.
  destruct (round_half_even_close (x * 1000)) as [Hlo Hhi].
  split.
  - apply Qle_shift_div_l; lra.
  - apply Qle_shift_div_r; lra.
Qed.

(** X11.  Each score stored in an evaluation is the computed score rounded
    to three decimals: it lies no further than 0.0005 from the score that
    the recommendation was made from. *)
Theorem X11_stored_scores_rounded self info now evaluation self' :
  evaluate_target info now self = (Ok evaluation, self') →
  rounded_from (ev_risk_score evaluation) (overall_risk_of info)
  ∧ rounded_from (ev_security_risk evaluation) (_assess_security_risk info)
  ∧ rounded_from (ev_detection_risk evaluation)
      (_assess_detection_risk info)
  ∧ rounded_from (ev_success_probability evaluation)
      (_predict_success (_extract_features info))
  ∧ rounded_from (ev_strategic_value evaluation)
      (_assess_strategic_value info)
  ∧ ev_target_ip evaluation = ip_address info
  ∧ decision_history self' = (decision_history self ++ [evaluation])%list.
Proof.
  rewrite evaluate_target_run. intros [= <- <-]. simpl.
  repeat split; apply round3_close.
Qed.

Lemma X11_stored_scores_rounded_witness :
  let r := evaluate_target test_target_info "t0" (__init__ test_db_handler) in
  ∃ evaluation,
    r.1 = Ok evaluation
    ∧ rounded_from (ev_risk_score evaluation)
        (overall_risk_of test_target_info)
    ∧ rounded_from (ev_security_risk evaluation)
        (_assess_security_risk test_target_info)
    ∧ rounded_from (ev_detection_risk evaluation)
        (_assess_detection_risk test_target_info)
    ∧ rounded_from (ev_success_probability evaluation)
        (_predict_success (_extract_features test_target_info))
    ∧ rounded_from (ev_strategic_value evaluation)
        (_assess_strategic_value test_target_info)
    ∧ ev_target_ip evaluation = ip_address test_target_info
    ∧ decision_history r.2
      = (decision_history (__init__ test_db_handler) ++ [evaluation])%list.
Proof.
  intros r. eexists. split; [reflexivity|].
  apply (X11_stored_scores_rounded (__init__ test_db_handler)
           test_target_info "t0").
  reflexivity.
Defined.

End AIDecisionEngineMore.

(** ** Replication-state manager: identifiers, replication and repair *)

Section QuantumReplicatorMore.

Import QuantumReplicator.

Variables sha256_hexdigest sha512_hexdigest md5_hexdigest : string → string.
Variable b64encode : string → string.
Variable read_file : string → option string.

Lemma ascii_upper_idemp (c : ascii) : ascii_upper (ascii_upper c) = ascii_upper c.
Proof. destruct c as [[] [] [] [] [] [] [] []]; reflexivity. Qed.

Lemma upper_idemp (s : string) : upper (upper s) = upper s.
Proof.
  induction s as [|c s IH]; simpl; [reflexivity|].
  rewrite ascii_upper_idemp, IH. reflexivity.
Qed.

Lemma upper_length (s : string) : String.length (upper s) = String.length s.
Proof. induction s as [|c s IH]; simpl; [reflexivity | rewrite IH; reflexivity]. Qed.

Lemma substring_0_length (n : nat) (s : string) :
  (n ≤ String.length s)%nat → String.length (String.substring 0 n s) = n.
Proof.
  revert s. induction n as [|n IH]; intros s Hn.
  - destruct s; reflexivity.
  - destruct s as [|c s]; simpl in *; [lia|].
    rewrite IH; [reflexivity | lia].
Qed.

(** X12.  With a digest of at least 16 characters (SHA-256 gives 64), a
    generated clone id is ["QC-"] followed by 16 characters, 19 in all, and
    holds no lower-case letter: upper-casing it changes nothing. *)
Theorem X12_quantum_id_format target_ip parent_id now :
  (16 ≤ String.length
          (sha256_hexdigest (parent_id ++ "-" ++ target_ip ++ "-" ++ now)))%nat →
  let clone_id :=
    _generate_quantum_id sha256_hexdigest target_ip parent_id now in
  String.length clone_id = 19%nat
  ∧ String.substring 0 3 clone_id = "QC-"
  ∧ upper clone_id = clone_id.
Proof.
  intros Hlen. cbv zeta. unfold _generate_quantum_id.
  set (h := String.substring 0 16 _).
  assert (Hh : String.length h = 16%nat) by (apply substring_0_length, Hlen).
  split; [|split].
  - change (String.length ("QC-" ++ upper h))
      with (S (S (S (String.length (upper h))))).
    rewrite upper_length, Hh. reflexivity.
  - simpl. destruct (upper h); reflexivity.
  - change (upper ("QC-" ++ upper h)) with ("QC-" ++ upper (upper h)).
    rewrite upper_idemp. reflexivity.
Qed.

Lemma get_clone_generation_Some_connected db st p :
  DatabaseHandler.connection db = Some st →
  ∃ g, DatabaseHandler.get_clone_generation (Some p) db = (Ok g, db).
Proof.
  intros Hc. unfold DatabaseHandler.get_clone_generation.
  destruct (truthy (Some p)); simpl; [|eexists; reflexivity].
  rewrite (py_bind_Ok _ _ _ _ _ (the_connection_connected _ _ Hc)).
  eexists. reflexivity.
Qed.

Lemma create_replication_package_connected self st clone_id parent_id now :
  DatabaseHandler.connection (db_handler self) = Some st →
  ∃ package,
    _create_replication_package sha512_hexdigest b64encode read_file
      clone_id parent_id now self = (Ok package, self).
Proof.
  intros Hc.
  destruct (get_clone_generation_Some_connected _ st parent_id Hc) as [g Hg].
  assert (Hz : on_db (DatabaseHandler.get_clone_generation (Some parent_id))
                 self = (Ok g, self)).
  { unfold on_db. rewrite (py_zoom_run _ _ _ _ _ _ Hg).
    destruct self; reflexivity. }
  unfold _create_replication_package, _generate_clone_config,
    _calculate_generation.
  rewrite (py_bind_Ok _ _ self
             (mkCloneConfig clone_id parent_id (g + 1) true "maximum" true
                [("detected", true); ("isolated", true);
                 ("parent_terminated", false)]) self).
  - eexists. reflexivity.
  - rewrite (py_bind_Ok _ _ self (g + 1)%Z self); [reflexivity|].
    rewrite (py_bind_Ok _ _ _ _ _ Hz). reflexivity.
Qed.

(** X13.  On a connected handler [replicate] succeeds: it returns the clone
    under the generated id with status [active], records the entanglement
    pair (parent, fresh key, time) and a captured quantum state under that
    id, touches no other entry of either map and nothing in the store; a
    status check that follows reports healthy with coherence 0.99. *)
Theorem X13_replicate_entangles self st target_ip connection parent_id now
    urandom_hex now' :
  DatabaseHandler.connection (db_handler self) = Some st →
  let clone_id :=
    _generate_quantum_id sha256_hexdigest target_ip parent_id now in
  let entanglement_key :=
    _establish_quantum_entanglement sha256_hexdigest clone_id parent_id
      urandom_hex in
  let qs := mkQuantumState 0.99 0.95 true now in
  ∃ self',
    replicate sha256_hexdigest sha512_hexdigest md5_hexdigest b64encode
      read_file target_ip connection parent_id now urandom_hex self
    = (Ok (mkCloneInfo clone_id parent_id target_ip now entanglement_key
             "active" qs), self')
    ∧ entanglement_pairs self'
      = <[clone_id := mkEntanglementPair parent_id entanglement_key
                        (Some now)]> (entanglement_pairs self)
    ∧ quantum_state self' = <[clone_id := qs]> (quantum_state self)
    ∧ db_handler self' = db_handler self
    ∧ check_clone_status clone_id now' self'
      = (Ok (Healthy clone_id 0.99 now'), self').
Proof.
  intros Hc. cbv zeta.
  destruct (create_replication_package_connected self st
              (_generate_quantum_id sha256_hexdigest target_ip parent_id now)
              parent_id now Hc) as [package Hpkg].
  eexists. split.
  - unfold replicate. apply py_try_Ok.
    rewrite (py_bind_Ok _ _ _ _ _ Hpkg). reflexivity.
  - simpl. split; [reflexivity|]. split; [reflexivity|].
    split; [reflexivity|].
    unfold check_clone_status, py_bind, py_get. simpl.
    rewrite !lookup_insert_eq. reflexivity.
Qed.

(** X14.  On a handler that is not connected, and for a non-empty parent
    id, [replicate] raises the [AttributeError] of the generation lookup
    before it has changed anything: no entanglement pair and no quantum
    state is recorded. *)
Theorem X14_replicate_unconnected self target_ip connection parent_id now
    urandom_hex :
  DatabaseHandler.connection (db_handler self) = None →
  parent_id ≠ "" →
  replicate sha256_hexdigest sha512_hexdigest md5_hexdigest b64encode
    read_file target_ip connection parent_id now urandom_hex self
  = (Raise AttributeError, self).
Proof.
  intros Hc Hp. destruct self as [db qsm ep]. simpl in Hc.
  apply truthy_Some in Hp.
  unfold replicate, py_try, _create_replication_package,
    _generate_clone_config, _calculate_generation, on_db, py_zoom, py_bind,
    DatabaseHandler.get_clone_generation.
  simpl db_handler. rewrite Hp. simpl.
  rewrite (py_bind_Raise _ _ _ _ _ (the_connection_unconnected _ Hc)).
  reflexivity.
Qed.

(** X15.  [repair_clone] on an entangled clone reports success, replaces
    the key of its pair by the freshly derived one, keeps the pair's parent
    and time, recaptures the quantum state, and leaves the pairs of all
    other clones and the store untouched. *)
Theorem X15_repair_clone_entangled self cid entry now urandom_hex :
  entanglement_pairs self !! cid = Some entry →
  ∃ self',
    repair_clone sha256_hexdigest cid now urandom_hex self = (Ok true, self')
    ∧ entanglement_pairs self' !! cid
      = Some (mkEntanglementPair (parent entry)
                (_establish_quantum_entanglement sha256_hexdigest cid
                   (parent entry) urandom_hex)
                (established_at entry))
    ∧ (∀ other, other ≠ cid →
                entanglement_pairs self' !! other
                = entanglement_pairs self !! other)
    ∧ quantum_state self' !! cid = Some (mkQuantumState 0.99 0.95 true now)
    ∧ db_handler self' = db_handler self.
Proof.
  intros H. unfold repair_clone.
  eexists. split.
  - apply py_try_Ok.
    erewrite py_bind_Ok; [|reflexivity]. rewrite H.
    erewrite py_bind_Ok; [|reflexivity].
    erewrite py_bind_Ok; reflexivity.
  - simpl. split; [apply lookup_insert_eq|].
    split; [intros other Hne; apply lookup_insert_ne; congruence|].
    split; [apply lookup_insert_eq | reflexivity].
Qed.

(** X16.  A clone that is registered but not entangled is never mended: its
    status check reports unhealthy, the engine answers that reason with
    [repair], the repair reports success, and the next status check reports
    the same unhealthy status, which the engine answers with [repair]
    again. *)
Theorem X16_repair_does_not_mend self cid now urandom_hex now' :
  entanglement_pairs self !! cid = None →
  ∃ status self',
    check_clone_status cid now self = (Ok status, self)
    ∧ healthy status = false
    ∧ decide_clone_action cid status = "repair"
    ∧ repair_clone sha256_hexdigest cid now urandom_hex self = (Ok true, self')
    ∧ check_clone_status cid now' self' = (Ok status, self').
Proof.
  intros H. exists (Unhealthy "No entanglement found"). eexists.
  split; [apply check_clone_status_not_entangled, H|].
  split; [reflexivity|]. split; [reflexivity|].
  split.
  - unfold repair_clone. apply py_try_Ok.
    erewrite py_bind_Ok; [|reflexivity]. rewrite H.
    erewrite py_bind_Ok; [|reflexivity].
    erewrite py_bind_Ok; reflexivity.
  - apply check_clone_status_not_entangled. exact H.
Qed.

End QuantumReplicatorMore.

(** The test [test_quantum_id_generation], with a digest function that
    returns 64 characters. *)
Lemma X12_quantum_id_format_witness :
  let digest : string → string :=
    λ _, "9f86d081884c7d659a2feaa0c55ad015a3bf4f1b2b0b822cd15d6c15b0f00a08" in
  let clone_id :=
    QuantumReplicator._generate_quantum_id digest "192.168.1.100"
      "PARENT-001" "t0" in
  String.length clone_id = 19%nat
  ∧ String.substring 0 3 clone_id = "QC-"
  ∧ upper clone_id = clone_id.
Proof.
  intros digest.
  apply (X12_quantum_id_format digest "192.168.1.100" "PARENT-001" "t0").
  vm_compute. lia.
Defined.

Lemma X13_replicate_entangles_witness :
  let digest : string → string :=
    λ _, "9f86d081884c7d659a2feaa0c55ad015a3bf4f1b2b0b822cd15d6c15b0f00a08" in
  let self := QuantumReplicator.__init__ test_db_handler in
  let connection :=
    mkConnection "192.168.1.100" "t0" "protocol_mimicry" true "custom"
      "active" in
  let clone_id := "QC-9F86D081884C7D65" in
  let qs := mkQuantumState 0.99 0.95 true "t1" in
  ∃ self',
    QuantumReplicator.replicate digest digest digest digest (λ _, None)
      "192.168.1.100" connection "PARENT-001" "t1" "00" self
    = (Ok (mkCloneInfo clone_id "PARENT-001" "192.168.1.100" "t1"
             (digest "") "active" qs), self')
    ∧ QuantumReplicator.entanglement_pairs self'
      = <[clone_id := mkEntanglementPair "PARENT-001" (digest "")
                        (Some "t1")]>
          (QuantumReplicator.entanglement_pairs self)
    ∧ QuantumReplicator.quantum_state self'
      = <[clone_id := qs]> (QuantumReplicator.quantum_state self)
    ∧ QuantumReplicator.db_handler self' = QuantumReplicator.db_handler self
    ∧ QuantumReplicator.check_clone_status clone_id "t2" self'
      = (Ok (Healthy clone_id 0.99 "t2"), self').
Proof.
  intros digest self connection clone_id qs.
  apply (X13_replicate_entangles digest digest digest digest (λ _, None)
           self empty_store "192.168.1.100" connection "PARENT-001" "t1"
           "00" "t2").
  reflexivity.
Defined.

Lemma X14_replicate_unconnected_witness :
  let self :=
    QuantumReplicator.__init__ (DatabaseHandler.__init__ ":memory:") in
  QuantumReplicator.replicate (λ s, s) (λ s, s) (λ s, s) (λ s, s) (λ _, None)
    "192.168.1.100"
    (mkConnection "192.168.1.100" "t0" "protocol_mimicry" true "custom"
       "active")
    "PARENT-001" "t1" "00" self
  = (Raise AttributeError, self).
Proof.
  intros self.
  apply (X14_replicate_unconnected (λ s, s) (λ s, s) (λ s, s) (λ s, s)
           (λ _, None) self).
  - reflexivity.
  - discriminate.
Defined.

(** The test [test_clone_repair]. *)
Lemma X15_repair_clone_entangled_witness :
  let entry := mkEntanglementPair "PARENT-001" "old-key" None in
  let self :=
    QuantumReplicator.set_entanglement_pairs {[ "CLONE-001" := entry ]}
      (QuantumReplicator.__init__ test_db_handler) in
  ∃ self',
    QuantumReplicator.repair_clone (λ s, s) "CLONE-001" "t1" "00" self
    = (Ok true, self')
    ∧ QuantumReplicator.entanglement_pairs self' !! "CLONE-001"
      = Some (mkEntanglementPair (parent entry)
                (QuantumReplicator._establish_quantum_entanglement (λ s, s)
                   "CLONE-001" (parent entry) "00")
                (established_at entry))
    ∧ (∀ other, other ≠ "CLONE-001" →
                QuantumReplicator.entanglement_pairs self' !! other
                = QuantumReplicator.entanglement_pairs self !! other)
    ∧ QuantumReplicator.quantum_state self' !! "CLONE-001"
      = Some (mkQuantumState 0.99 0.95 true "t1")
    ∧ QuantumReplicator.db_handler self' = QuantumReplicator.db_handler self.
Proof.
  intros entry self.
  apply (X15_repair_clone_entangled (λ s, s) self "CLONE-001" entry "t1" "00").
  vm_compute. reflexivity.
Defined.

Lemma X16_repair_does_not_mend_witness :
  let self := QuantumReplicator.__init__ test_db_handler in
  ∃ status self',
    QuantumReplicator.check_clone_status "CLONE-001" "t1" self
    = (Ok status, self)
    ∧ healthy status = false
    ∧ decide_clone_action "CLONE-001" status = "repair"
    ∧ QuantumReplicator.repair_clone (λ s, s) "CLONE-001" "t1" "00" self
      = (Ok true, self')
    ∧ QuantumReplicator.check_clone_status "CLONE-001" "t2" self'
      = (Ok status, self').
Proof.
  intros self.
  apply (X16_repair_does_not_mend (λ s, s) self "CLONE-001" "t1" "00" "t2").
  vm_compute. reflexivity.
Defined.

(** ** Reconnaissance simulator: connections and intelligence *)

Section StealthModuleMore.

Import StealthModule.

Variable ip_network : string → option Network.

(** X17.  [establish_connection] needs a non-empty list of evasion
    techniques: with one it returns an encrypted, active connection to the
    target whose technique is taken from the list, and with none it raises
    an [IndexError]; so it succeeds after [activate] and raises after
    [deactivate] or before any activation.  The module is left as it was in
    either case. *)
Theorem X17_establish_connection self target_ip now choice_draw :
  (evasion_techniques self = [] →
   establish_connection target_ip now choice_draw self
   = (Raise IndexError, self))
  ∧ (evasion_techniques self ≠ [] →
     ∃ technique,
       establish_connection target_ip now choice_draw self
       = (Ok (mkConnection target_ip now technique true "custom" "active"),
          self)
       ∧ technique ∈ evasion_techniques self)
  ∧ (∃ connection,
       establish_connection target_ip now choice_draw (activate self).2
       = (Ok connection, (activate self).2))
  ∧ establish_connection target_ip now choice_draw (deactivate self).2
    = (Raise IndexError, (deactivate self).2)
  ∧ establish_connection target_ip now choice_draw __init__
    = (Raise IndexError, __init__).
Proof.
  assert (Hsome : ∀ s, evasion_techniques s ≠ [] →
            ∃ technique,
              establish_connection target_ip now choice_draw s
              = (Ok (mkConnection target_ip now technique true "custom"
                       "active"), s)
              ∧ technique ∈ evasion_techniques s).
  { intros s Hne. unfold establish_connection, py_bind, py_get.
    destruct (lookup_lt_is_Some_2 (evasion_techniques s)
                (choice_draw mod length (evasion_techniques s))) as [t Ht].
    { apply Nat.mod_upper_bound. destruct (evasion_techniques s);
        [congruence | simpl; lia]. }
    rewrite Ht. exists t. split; [reflexivity|].
    apply list_elem_of_lookup. eauto. }
  assert (Hnone : ∀ s, evasion_techniques s = [] →
            establish_connection target_ip now choice_draw s
            = (Raise IndexError, s)).
  { intros s He. unfold establish_connection, py_bind, py_get.
    rewrite He. reflexivity. }
  split; [apply Hnone|]. split; [apply Hsome|].
  split; [|split; apply Hnone; reflexivity].
  destruct (Hsome (activate self).2) as (t & Ht & _); [discriminate|].
  eexists. exact Ht.
Qed.

(** X18.  [gather_intelligence] for an address whose /24 network parses
    returns a snapshot that carries the address, the drawn findings and the
    parsed subnet, and caches that snapshot under the address without
    touching the cache entries of other addresses; for an address that does
    not parse it raises a [ValueError] and caches nothing. *)
Theorem X18_gather_intelligence self target_ip now draw :
  (ip_network (target_ip ++ "/24") = None →
   gather_intelligence ip_network target_ip now draw self
   = (Raise ValueError, self))
  ∧ (∀ network, ip_network (target_ip ++ "/24") = Some network →
     ∃ intelligence self',
       gather_intelligence ip_network target_ip now draw self
       = (Ok intelligence, self')
       ∧ ip_address intelligence = target_ip
       ∧ security_posture intelligence = drawn_security draw
       ∧ vulnerabilities intelligence = drawn_vulnerabilities draw
       ∧ open_ports intelligence = drawn_ports draw
       ∧ services intelligence = drawn_services draw
       ∧ subnet (network_topology intelligence) = network_str network
       ∧ neighbors (network_topology intelligence) = drawn_neighbors draw
       ∧ discovered_targets self' !! target_ip = Some intelligence
       ∧ (∀ other, other ≠ target_ip →
                   discovered_targets self' !! other
                   = discovered_targets self !! other)
       ∧ evasion_techniques self' = evasion_techniques self
       ∧ active self' = active self).
Proof.
  split.
  - intros Hnone. unfold gather_intelligence, _map_topology, py_bind.
    rewrite Hnone. reflexivity.
  - intros network Hsome. do 2 eexists. split.
    + unfold gather_intelligence, _map_topology, py_bind.
      rewrite Hsome. reflexivity.
    + simpl. repeat split; try reflexivity.
      * apply lookup_insert_eq.
      * intros other Hne. apply lookup_insert_ne. congruence.
Qed.

Lemma split_on_nonempty sep s : split_on sep s ≠ [].
Proof.
  destruct s as [|c s]; simpl; [discriminate|].
  destruct (Ascii.eqb c sep); [discriminate|].
  destruct (split_on sep s); discriminate.
Qed.

(** Joining what was split gives the string back. *)
Lemma concat_split_on sep s :
  String.concat (String sep EmptyString) (split_on sep s) = s.
Proof.
  induction s as [|c s IH]; simpl; [reflexivity|].
  destruct (Ascii.eqb_spec c sep) as [->|Hne].
  - pose proof (split_on_nonempty sep s) as Hn.
    destruct (split_on sep s) as [|w ws] eqn:E; [congruence|].
    change (String.concat (String sep "") ("" :: w :: ws))
      with (String sep (String.concat (String sep "") (w :: ws))).
    rewrite IH. reflexivity.
  - pose proof (split_on_nonempty sep s) as Hn.
    destruct (split_on sep s) as [|w ws] eqn:E; [congruence|].
    rewrite <- IH. destruct ws; reflexivity.
Qed.

Lemma split_on_no_sep sep s :
  ¬ In sep (String.list_ascii_of_string s) → split_on sep s = [s].
Proof.
  induction s as [|c s IH]; simpl; [reflexivity|].
  intros Hnot. destruct (Ascii.eqb_spec c sep) as [->|Hne]; [tauto|].
  rewrite IH by tauto. reflexivity.
Qed.

Lemma split_on_last sep prefix last :
  ¬ In sep (String.list_ascii_of_string last) →
  split_on sep (prefix ++ String sep last)
  = (split_on sep prefix ++ [last])%list.
Proof.
  intros Hlast. induction prefix as [|c prefix IH].
  - change ("" ++ String sep last) with (String sep last).
    simpl. rewrite Ascii.eqb_refl, (split_on_no_sep _ _ Hlast). reflexivity.
  - change (String c prefix ++ String sep last)
      with (String c (prefix ++ String sep last)).
    simpl. rewrite IH.
    destruct (Ascii.eqb c sep); [reflexivity|].
    pose proof (split_on_nonempty sep prefix) as Hn.
    destruct (split_on sep prefix); [congruence | reflexivity].
Qed.

Lemma string_app_assoc (a b c : string) : (a ++ b) ++ c = a ++ b ++ c.
Proof.
  induction a as [|ch a IH]; [reflexivity|].
  change (String ch ((a ++ b) ++ c) = String ch (a ++ b ++ c)).
  rewrite IH. reflexivity.
Qed.

Lemma concat_snoc sep (l : list string) x :
  l ≠ [] →
  String.concat sep (l ++ [x])%list = String.concat sep l ++ sep ++ x.
Proof.
  induction l as [|a l IH]; [congruence|]. intros _.
  destruct l as [|b l].
  - reflexivity.
  - change (String.concat sep ((a :: b :: l) ++ [x])%list)
      with (a ++ sep ++ String.concat sep ((b :: l) ++ [x])%list).
    rewrite IH by discriminate.
    change (String.concat sep (a :: b :: l))
      with (a ++ sep ++ String.concat sep (b :: l)).
    rewrite !string_app_assoc. reflexivity.
Qed.

(** X19.  The gateway of the topology record is the target address with
    its last dot-separated component replaced by [1]: for an address
    [prefix.last], whatever the prefix, it is [prefix.1]. *)
Theorem X19_gateway_replaces_last_octet self prefix last neighbors
    network_type network :
  ¬ In "."%char (String.list_ascii_of_string last) →
  ip_network ((prefix ++ "." ++ last) ++ "/24") = Some network →
  ∃ topology,
    _map_topology ip_network (prefix ++ "." ++ last) neighbors network_type
      self = (Ok topology, self)
    ∧ gateway topology = prefix ++ ".1"
    ∧ subnet topology = network_str network.
Proof.
  intros Hlast Hnet. unfold _map_topology. rewrite Hnet.
  eexists. split; [reflexivity|]. simpl. split; [|reflexivity].
  change ("." ++ last) with (String "." last).
  rewrite (split_on_last "." prefix last Hlast).
  rewrite removelast_last.
  rewrite concat_snoc by apply split_on_nonempty.
  rewrite (concat_split_on "." prefix). reflexivity.
Qed.

End StealthModuleMore.

Lemma X19_gateway_replaces_last_octet_witness :
  ∃ topology,
    StealthModule._map_topology sample_ip_network ("192.168.1" ++ "." ++ "100")
      10 "flat" StealthModule.__init__ = (Ok topology, StealthModule.__init__)
    ∧ gateway topology = "192.168.1" ++ ".1"
    ∧ subnet topology = network_str sample_network.
Proof.
  apply (X19_gateway_replaces_last_octet sample_ip_network
           StealthModule.__init__ "192.168.1" "100" 10 "flat" sample_network).
  - simpl. intros [H|[H|[H|[]]]]; discriminate.
  - reflexivity.
Defined.

(** ** Orchestrator: the replication attempt *)

Section OuroborosZeroMore.

Import OuroborosZero.

Variables sha256_hexdigest sha512_hexdigest md5_hexdigest : string → string.
Variable b64encode : string → string.
Variable read_file : string → option string.
Variable ip_network : string → option Network.



Lemma register_clone_keeps_connection db st cid parent tip now :
  DatabaseHandler.connection db = Some st →
  ∃ ok st',
    DatabaseHandler.register_clone cid parent tip now db
    = (Ok ok, DatabaseHandler.mkState (DatabaseHandler.db_path db) (Some st'))
    ∧ is_Some (clones st' !! cid)
    ∧ (clones st !! cid = None →
       ok = true
       ∧ row_parent_id <$> clones st' !! cid = Some parent
       ∧ row_status <$> clones st' !! cid = Some "active").
Proof.
  intros Hc. destruct (clones st !! cid) as [row|] eqn:Hrow.
  - exists false, st.
    rewrite (register_clone_duplicate _ _ _ _ _ _ _ Hc Hrow).
    split; [destruct db; simpl in *; congruence|].
    split; [eauto | discriminate].
  - do 2 eexists.
    split; [apply (register_clone_fresh _ _ _ _ _ _ Hc Hrow)|]. simpl.
    rewrite lookup_insert_eq. split; [eauto|]. intros _. repeat split.
Qed.

Lemma evaluate_target_Ok_connected target_ip d self evaluation self1 :
  evaluate_target ip_network target_ip d self = (Ok evaluation, self1) →
  (∃ st, DatabaseHandler.connection (db_handler self1) = Some st)
  ∧ StealthModule.evasion_techniques (stealth_module self1)
    = StealthModule.evasion_techniques (stealth_module self)
  ∧ clone_id self1 = clone_id self.
Proof.
  unfold evaluate_target, py_bind, on_stealth, on_engine, on_db, py_zoom.
  unfold StealthModule.gather_intelligence, StealthModule._map_topology,
    py_bind.
  destruct (ip_network _) as [network|]; simpl; [|discriminate].
  unfold DatabaseHandler.store_target_evaluation,
    DatabaseHandler.the_connection, py_bind, py_get.
  destruct (DatabaseHandler.connection (db_handler self)) as [st|] eqn:Hc;
    simpl; [|discriminate].
  intros [= <- <-]. simpl. eauto.
Qed.


(** X21.  When the evaluation succeeds with a risk score of at most 0.7
    but the simulator has no evasion techniques (it was never activated, or
    was deactivated), [replicate_to_target] reports failure: the connection
    attempt raises, and no connection, clone or entanglement is recorded. *)
Theorem X21_replicate_to_target_not_activated target_ip d self evaluation
    self1 :
  evaluate_target ip_network target_ip d self = (Ok evaluation, self1) →
  (ev_risk_score evaluation <= 0.7)%Q →
  StealthModule.evasion_techniques (stealth_module self) = [] →
  replicate_to_target sha256_hexdigest sha512_hexdigest md5_hexdigest
    b64encode read_file ip_network target_ip d self = (Ok false, self1)
  ∧ active_connections self1 = active_connections self
  ∧ clone_registry self1 = clone_registry self
  ∧ quantum_replicator self1 = quantum_replicator self
  ∧ clones_of self1 = clones_of self.
Proof.
  intros Hev Hrisk Htech.
  split; [|apply (evaluate_target_preserves _ _ _ _ _ _ Hev)].
  destruct (evaluate_target_Ok_connected _ _ _ _ _ Hev) as (_ & Hsm & _).
  unfold replicate_to_target.
  erewrite py_try_Raise; [reflexivity|].
  rewrite (py_bind_Ok _ _ _ _ _ Hev).
  apply Qle_bool_iff in Hrisk. unfold Qlt_bool. rewrite Hrisk.
  change (negb true) with false. cbv iota.
  apply py_bind_Raise. unfold on_stealth.
  erewrite py_zoom_run; cycle 1.
  { unfold StealthModule.establish_connection, py_bind, py_get.
    rewrite Hsm, Htech. reflexivity. }
  destruct self1 as [? ? ? ? ? []]; reflexivity.
Qed.

Lemma engine_initialize_connected e st :
  DatabaseHandler.connection (AIDecisionEngine.db_handler e) = Some st →
  AIDecisionEngine.initialize e
  = (Ok tt,
     AIDecisionEngine.mkState (AIDecisionEngine.db_handler e)
       (take 1000 (merge_sort DatabaseHandler.newer_first
                     (learning_data_table st)))
       (AIDecisionEngine.decision_history e)
       (Some AIDecisionEngine.default_strategy_parameters)
       (AIDecisionEngine.risk_tolerance e)).
Proof.
  intros Hc.
  unfold AIDecisionEngine.initialize, AIDecisionEngine.on_db, py_zoom, py_bind,
    DatabaseHandler.load_learning_data, DatabaseHandler.the_connection,
    py_bind, py_get.
  rewrite Hc. destruct e as [[path conn] ? ? ? ?]. simpl in *. subst conn.
  reflexivity.
Qed.

(** X22.  [initialize] on a freshly constructed orchestrator reports
    success exactly when the database file opens and its schema script
    runs.  Then the handler is connected, the orchestrator has a row in the
    [clones] table (a root clone of generation 1 with status [active] when
    the file held no row under its id), the engine holds the default
    strategy parameters, and the simulator is active with its five evasion
    techniques.  When the file cannot be opened or the schema script fails,
    [initialize] reports failure, the engine is left without strategy
    parameters and the simulator inactive. *)
Theorem X22_initialize_fresh sqlite_open config_path generated_id now :
  let self := __init__ config_path generated_id in
  (∀ st, sqlite_open "data/replicator.db" = Opened st →
     ∃ self',
       initialize sqlite_open now self = (Ok true, self')
       ∧ clone_id self' = generated_id
       ∧ is_Some (DatabaseHandler.stored_generation (db_handler self')
                    generated_id)
       ∧ (clones st !! generated_id = None →
          DatabaseHandler.stored_generation (db_handler self') generated_id
          = Some 1%Z
          ∧ DatabaseHandler.stored_status (db_handler self') generated_id
            = Some "active")
       ∧ AIDecisionEngine.strategy_parameters (ai_engine self')
         = Some AIDecisionEngine.default_strategy_parameters
       ∧ StealthModule.active (stealth_module self') = true
       ∧ length (StealthModule.evasion_techniques (stealth_module self'))
         = 5%nat
       ∧ clone_registry self' = ∅
       ∧ active_connections self' = ∅)
  ∧ (∀ e, sqlite_open "data/replicator.db" = OpenError e →
          initialize sqlite_open now self = (Ok false, self))
  ∧ (∀ st e, sqlite_open "data/replicator.db" = SchemaError st e →
     ∃ self',
       initialize sqlite_open now self = (Ok false, self')
       ∧ DatabaseHandler.connection (db_handler self') = Some st
       ∧ AIDecisionEngine.strategy_parameters (ai_engine self') = None
       ∧ StealthModule.active (stealth_module self') = false
       ∧ StealthModule.evasion_techniques (stealth_module self') = []).
Proof.
  cbv zeta. split; [|split].
  - intros st Hopen.
    set (db1 := DatabaseHandler.mkState "data/replicator.db" (Some st)).
    assert (Hconn : on_db (DatabaseHandler.connect sqlite_open)
                      (__init__ config_path generated_id)
                    = (Ok tt, set_db_handler db1
                                (__init__ config_path generated_id))).
    { unfold on_db. apply py_zoom_run.
      unfold DatabaseHandler.connect, py_try. simpl. rewrite Hopen.
      reflexivity. }
    destruct (register_clone_keeps_connection db1 st generated_id None None
                now eq_refl) as (ok & st' & Hreg & Hrow & Hfresh).
    assert (Hgen : clones st !! generated_id = None →
                   row_generation <$> clones st' !! generated_id = Some 1%Z).
    { intros Hnone.
      pose proof (register_clone_fresh db1 st generated_id None None now
                    eq_refl Hnone) as Hf.
      rewrite Hf in Hreg. injection Hreg as _ Hst'. subst st'. simpl.
      rewrite lookup_insert_eq. reflexivity. }
    eexists. split.
    + unfold initialize. apply py_try_Ok.
      rewrite (py_bind_Ok _ _ _ _ _ Hconn).
      erewrite py_bind_Ok; [|reflexivity].
      erewrite py_bind_Ok; [|unfold on_db; apply py_zoom_run; exact Hreg].
      erewrite py_bind_Ok; cycle 1.
      { unfold on_engine. apply py_zoom_run.
        apply (engine_initialize_connected _ st'). reflexivity. }
      erewrite py_bind_Ok; reflexivity.
    + unfold DatabaseHandler.stored_generation, DatabaseHandler.stored_status.
      simpl. split; [reflexivity|].
      destruct Hrow as [row Hrow]. rewrite Hrow. simpl.
      split; [eauto|]. split.
      { intros Hnone. specialize (Hgen Hnone).
        destruct (Hfresh Hnone) as (_ & _ & Hstatus).
        rewrite Hrow in Hgen, Hstatus. simpl in Hgen, Hstatus.
        injection Hgen as ->. injection Hstatus as ->. split; reflexivity. }
      repeat split.
  - intros e Hopen. unfold initialize.
    erewrite py_try_Raise; [reflexivity|].
    apply py_bind_Raise. unfold on_db.
    erewrite py_zoom_run; cycle 1.
    { unfold DatabaseHandler.connect, py_try. simpl. rewrite Hopen.
      reflexivity. }
    reflexivity.
  - intros st e Hopen. eexists. split.
    + unfold initialize.
      erewrite py_try_Raise; [reflexivity|].
      apply py_bind_Raise. unfold on_db. apply py_zoom_run.
      unfold DatabaseHandler.connect, py_try. simpl. rewrite Hopen.
      reflexivity.
    + simpl. repeat split.
Qed.

(** X23.  [scan_network] never raises: it scans the default subnet, stores
    the list of targets it returns as the orchestrator's replication
    targets, returns at most 50 of them, and changes nothing else. *)
Theorem X23_scan_network random_shuffle alive_draws self :
  ∃ targets,
    scan_network ip_network random_shuffle alive_draws self
    = (Ok targets,
       mkState (config_path self) (running self) (clone_id self)
         (db_handler self) (quantum_replicator self) (stealth_module self)
         (ai_engine self) targets (active_connections self)
         (clone_registry self))
    ∧ (length targets ≤ 50)%nat
    ∧ (ip_network "192.168.1.0/24" = None → targets = [])
    ∧ ∀ network, ip_network "192.168.1.0/24" = Some network →
        targets
          `sublist_of` take 50 (random_shuffle (network_hosts network)).
Proof.
  pose proof (scan_targets_run ip_network random_shuffle alive_draws None
                (stealth_module self)) as Hscan.
  cbv zeta in Hscan. simpl in Hscan.
  eexists. split.
  - unfold scan_network. apply py_try_Ok.
    erewrite py_bind_Ok; [|unfold on_stealth; apply py_zoom_run; exact Hscan].
    erewrite py_bind_Ok; [|reflexivity].
    destruct self; reflexivity.
  - destruct (ip_network "192.168.1.0/24") as [network|].
    + pose proof (scan_loop_sublist alive_draws
                    (take 50 (random_shuffle (network_hosts network))) 0)
        as Hsub.
      split; [|split; [discriminate|]].
      * apply sublist_length in Hsub. rewrite length_take in Hsub. lia.
      * intros ? [= <-]. exact Hsub.
    + split; [simpl; lia|]. split; [reflexivity | discriminate].
Qed.

End OuroborosZeroMore.


(** The same target, met by an orchestrator that was never initialised
    beyond its store connection. *)
Lemma X21_replicate_to_target_not_activated_witness :
  let self :=
    OuroborosZero.set_db_handler test_db_handler
      (OuroborosZero.__init__ "config/config.yaml"
         "OUROBOROS-20240101000000") in
  let d := mkDraws "t1" moderate_draw 3 "00" in
  ∃ self1,
    OuroborosZero.replicate_to_target (λ s, s) (λ s, s) (λ s, s) (λ s, s)
      (λ _, None) sample_ip_network "192.168.1.100" d self = (Ok false, self1)
    ∧ OuroborosZero.active_connections self1
      = OuroborosZero.active_connections self
    ∧ OuroborosZero.clone_registry self1 = OuroborosZero.clone_registry self
    ∧ OuroborosZero.quantum_replicator self1
      = OuroborosZero.quantum_replicator self
    ∧ OuroborosZero.clones_of self1 = OuroborosZero.clones_of self.
Proof.
  intros self d. eexists.
  eapply (X21_replicate_to_target_not_activated (λ s, s) (λ s, s) (λ s, s)
            (λ s, s) (λ _, None) sample_ip_network "192.168.1.100" d self).
  - vm_compute. reflexivity.
  - vm_compute. discriminate.
  - reflexivity.
Defined.
